(** * Portfolio analyzer: lot accounting, portfolio aggregate, allocation
      reports and the Monte Carlo optimizer

    A shallow embedding of [src/core/stock.py], [src/core/portfolio.py] and
    [examples/advanced_optimization.py].

    Modelling conventions.
    - Python numbers ([int] and [float]) are exact rationals [Q]; the code's
      comparisons [==], [<], [>=] are the decidable tests [Qeq_bool],
      [Qlt_bool], [Qle_bool].  Rounding of binary floating point is not
      modelled.
    - A raised exception is a value of [result]; a method that mutates
      [self] returns the pair of its outcome and the object as the call left
      it, so that what a failed call has already written stays visible.
    - A Python [dict] is an insertion-ordered association list with unique
      keys ([dict_wf]).
    - [datetime.now()] is the explicit argument [now]. *)

From Stdlib Require Import QArith Qabs Qround ZArith List String Ascii Bool Lia Lqa.
From Stdlib Require Import DecimalString DecimalNat.
Import ListNotations.
Open Scope string_scope.
Open Scope Q_scope.

(** ** Python values and exceptions *)

Definition datetime := Z.
Bind Scope Z_scope with datetime.

Inductive exn : Type :=
| ValueError (msg : string)
| ZeroDivisionError.

Inductive result (A : Type) : Type :=
| Ok (a : A)
| Raise (e : exn).

Arguments Ok {A} a.
Arguments Raise {A} e.

Definition rbind {A B : Type} (r : result A) (k : A -> result B) : result B :=
  match r with
  | Ok a => k a
  | Raise e => Raise e
  end.

Notation "x <- c ;; k" := (rbind c (fun x => k))
  (at level 61, c at next level, right associativity).

(** [a < b] on Python numbers. *)
Definition Qlt_bool (a b : Q) : bool := negb (Qle_bool b a).

(** [a / b]: Python raises [ZeroDivisionError] on a zero divisor. *)
Definition pydiv (a b : Q) : result Q :=
  if Qeq_bool b 0 then Raise ZeroDivisionError else Ok (a / b).

(** The builtin [sum]: a left fold that starts at 0. *)
Definition pysum (l : list Q) : Q := fold_left Qplus l 0.

(** [str.upper()] on ASCII text. *)
Definition upper_ascii (c : ascii) : ascii :=
  let n := nat_of_ascii c in
  if (Nat.leb 97 n && Nat.leb n 122)%bool then ascii_of_nat (n - 32) else c.

Fixpoint upper (s : string) : string :=
  match s with
  | EmptyString => EmptyString
  | String c r => String (upper_ascii c) (upper r)
  end.

(** ** Dictionaries *)

Section Dict.
Context {V : Type}.

Definition dict := list (string * V).

Fixpoint dict_get (k : string) (d : dict) : option V :=
  match d with
  | [] => None
  | (k', v) :: r => if String.eqb k k' then Some v else dict_get k r
  end.

Definition dict_mem (k : string) (d : dict) : bool :=
  match dict_get k d with Some _ => true | None => false end.

(** [d[k] = v]: an existing key keeps its place, a new key goes last. *)
Fixpoint dict_set (k : string) (v : V) (d : dict) : dict :=
  match d with
  | [] => [(k, v)]
  | (k', v') :: r =>
      if String.eqb k k' then (k', v) :: r else (k', v') :: dict_set k v r
  end.

(** [del d[k]], used only under a membership test: no entry under [k]
    is left. *)
Fixpoint dict_del (k : string) (d : dict) : dict :=
  match d with
  | [] => []
  | (k', v') :: r =>
      if String.eqb k k' then dict_del k r else (k', v') :: dict_del k r
  end.

Definition dict_keys (d : dict) : list string := map fst d.
Definition dict_values (d : dict) : list V := map snd d.

Definition dict_wf (d : dict) : Prop := NoDup (dict_keys d).
End Dict.

Arguments dict V : clear implicits.

(** ** The market-data provider and series arithmetic

    What [yfinance] answers for a symbol.  A failed fetch is already folded
    in, as the [except] clauses of [stock.py] do: price 0, an empty info
    mapping (every key absent), an empty history.  Answers are stable for
    the duration of one report (the time-keyed cache is not modelled). *)

Record Info : Type := mkInfo {
  longName : option string;
  sector : option string;
  industry : option string;
  marketCap : option Q;
  trailingPE : option Q;
  dividendYield : option Q
}.

Definition empty_info : Info := mkInfo None None None None None None.

Record Provider : Type := mkProvider {
  current_price : string -> Q;
  info : string -> Info;
  history_close : string -> string -> list Q
}.

(** The provider whose every fetch fails. *)
Definition degraded : Provider :=
  mkProvider (fun _ => 0) (fun _ => empty_info) (fun _ _ => []).

(** [dict.get(key, default)] on an optional entry. *)
Definition get_or {A : Type} (o : option A) (default : A) : A :=
  match o with Some a => a | None => default end.

(** A pandas [Series] is the list of its values, one per trading day; all
    histories share one calendar. *)
Definition series := list Q.

Definition series_empty (s : series) : bool :=
  match s with [] => true | _ => false end.

(** [Series.pct_change().dropna()]: the first day has no predecessor. *)
Fixpoint pct_change_from (prev : Q) (s : series) : series :=
  match s with
  | [] => []
  | x :: r => (x / prev - 1) :: pct_change_from x r
  end.

Definition pct_change (s : series) : series :=
  match s with
  | [] => []
  | x :: r => pct_change_from x r
  end.

Definition series_len (s : series) : Q := inject_Z (Z.of_nat (List.length s)).

Definition series_mean (s : series) : Q := pysum s / series_len s.

(** [Series.std()]: the sample standard deviation. *)
Definition series_std (np_sqrt : Q -> Q) (s : series) : Q :=
  let m := series_mean s in
  np_sqrt (pysum (map (fun x => (x - m) * (x - m)) s) / (series_len s - 1)).

(** [(1 + returns).cumprod()]. *)
Fixpoint cumprod_from (acc : Q) (s : series) : series :=
  match s with
  | [] => []
  | x :: r => let acc := acc * (1 + x) in acc :: cumprod_from acc r
  end.

Definition Qmax_py (a b : Q) : Q := if Qle_bool a b then b else a.
Definition Qmin_py (a b : Q) : Q := if Qle_bool a b then a else b.

(** [Series.expanding().max()]. *)
Fixpoint running_max_from (m : Q) (s : series) : series :=
  match s with
  | [] => []
  | x :: r => let m := Qmax_py m x in m :: running_max_from m r
  end.

Definition running_max (s : series) : series :=
  match s with
  | [] => []
  | x :: r => x :: running_max_from x r
  end.

Fixpoint zip_with {A B C : Type} (f : A -> B -> C) (l : list A) (m : list B)
  : list C :=
  match l, m with
  | a :: l', b :: m' => f a b :: zip_with f l' m'
  | _, _ => []
  end.

Definition series_min (s : series) : Q :=
  match s with
  | [] => 0
  | x :: r => fold_left Qmin_py r x
  end.

Fixpoint insert_sorted (x : Q) (l : list Q) : list Q :=
  match l with
  | [] => [x]
  | y :: r => if Qle_bool x y then x :: l else y :: insert_sorted x r
  end.

Definition sort_series (s : series) : series := fold_right insert_sorted [] s.

(** [np.percentile(s, q)], linear interpolation between order statistics. *)
Definition np_percentile (s : series) (q : Q) : Q :=
  let sorted := sort_series s in
  let h := (series_len s - 1) * q / 100 in
  let lo := Z.to_nat (Qfloor h) in
  let a := nth lo sorted 0 in
  let b := nth (S lo) sorted a in
  a + (h - inject_Z (Qfloor h)) * (b - a).

(** ** [stock.py]: transactions and holdings *)

Module Transaction.
Record t : Type := mk {
  date : datetime;
  shares : Q;
  price : Q;
  transaction_type : string;
  fees : Q
}.

Definition total_cost (self : t) : Q := (shares self * price self) + fees self.
End Transaction.

Module Stock.
Record t : Type := mk {
  symbol : string;
  shares : Q;
  purchase_price : Q;
  name : option string;
  transactions : list Transaction.t
}.

Definition set_shares (v : Q) (self : t) : t :=
  mk (symbol self) v (purchase_price self) (name self) (transactions self).

Definition set_purchase_price (v : Q) (self : t) : t :=
  mk (symbol self) (shares self) v (name self) (transactions self).

Definition set_transactions (v : list Transaction.t) (self : t) : t :=
  mk (symbol self) (shares self) (purchase_price self) (name self) v.

Definition oversell_msg : string :=
  "Nao e possivel vender mais acoes do que possui".

(** [Stock.add_transaction].  The record is appended first; the share
    count is updated next; the check on a sale comes last. *)
Definition add_transaction (now : datetime) (n price : Q)
    (transaction_type : string) (date : option datetime) (fees : Q)
    (self : t) : result unit * t :=
  let date := match date with None => now | Some d => d end in
  let transaction := Transaction.mk date n price transaction_type fees in
  let self := set_transactions (transactions self ++ [transaction]) self in
  if String.eqb transaction_type "buy" then
    let total_cost :=
      (shares self * purchase_price self) + Transaction.total_cost transaction in
    let self := set_shares (shares self + n) self in
    let self :=
      set_purchase_price
        (if Qlt_bool 0 (shares self) then total_cost / shares self else 0) self in
    (Ok tt, self)
  else if String.eqb transaction_type "sell" then
    let self := set_shares (shares self - n) self in
    if Qlt_bool (shares self) 0
    then (Raise (ValueError oversell_msg), self)
    else (Ok tt, self)
  else (Ok tt, self).

(** [Stock.__init__]: the fields are set from the arguments, then the
    opening purchase is recorded through [add_transaction]. *)
Definition init (now : datetime) (symbol : string) (n purchase_price : Q)
    (name : option string) : result t :=
  let self := mk (upper symbol) n purchase_price name [] in
  if (Qlt_bool 0 n && Qlt_bool 0 purchase_price)%bool then
    match add_transaction now n purchase_price "buy" (Some now) 0 self with
    | (Ok _, self) => Ok self
    | (Raise e, _) => Raise e
    end
  else Ok self.

Definition get_current_price (prov : Provider) (self : t) : Q :=
  current_price prov (symbol self).

Definition get_info (prov : Provider) (self : t) : Info :=
  info prov (symbol self).

Definition get_historical_data (prov : Provider) (period : string) (self : t)
  : series :=
  history_close prov (symbol self) period.

Definition calculate_returns (prov : Provider) (period : string) (self : t)
  : series :=
  let history := get_historical_data prov period self in
  if series_empty history then [] else pct_change history.

Definition calculate_volatility (np_sqrt : Q -> Q) (prov : Provider)
    (period : string) (annualized : bool) (self : t) : Q :=
  let returns := calculate_returns prov period self in
  if series_empty returns then 0
  else
    let volatility := series_std np_sqrt returns in
    if annualized then volatility * np_sqrt 252 else volatility.

Definition calculate_sharpe_ratio (np_sqrt : Q -> Q) (prov : Provider)
    (period : string) (risk_free_rate : Q) (self : t) : Q :=
  let returns := calculate_returns prov period self in
  if series_empty returns then 0
  else
    let excess_returns := series_mean returns * 252 - risk_free_rate in
    let volatility := calculate_volatility np_sqrt prov period true self in
    if Qeq_bool volatility 0 then 0 else excess_returns / volatility.

Definition current_value (prov : Provider) (self : t) : Q :=
  shares self * get_current_price prov self.

Definition total_invested (self : t) : Q := shares self * purchase_price self.

Definition gain_loss (prov : Provider) (self : t) : Q :=
  current_value prov self - total_invested self.

Definition gain_loss_percent (prov : Provider) (self : t) : Q :=
  if Qeq_bool (total_invested self) 0 then 0
  else (gain_loss prov self / total_invested self) * 100.

Record Summary : Type := mkSummary {
  s_symbol : string;
  s_name : string;
  s_shares : Q;
  s_purchase_price : Q;
  s_current_price : Q;
  s_current_value : Q;
  s_total_invested : Q;
  s_gain_loss : Q;
  s_gain_loss_percent : Q;
  s_sector : string;
  s_industry : string;
  s_market_cap : Q;
  s_pe_ratio : Q;
  s_dividend_yield : Q;
  s_volatility : Q;
  s_sharpe_ratio : Q
}.

Definition get_summary (np_sqrt : Q -> Q) (prov : Provider) (self : t)
  : Summary :=
  let i := get_info prov self in
  mkSummary
    (symbol self)
    (match name self with
     | Some n => if String.eqb n "" then get_or (longName i) (symbol self) else n
     | None => get_or (longName i) (symbol self)
     end)
    (shares self)
    (purchase_price self)
    (get_current_price prov self)
    (current_value prov self)
    (total_invested self)
    (gain_loss prov self)
    (gain_loss_percent prov self)
    (get_or (sector i) "N/A")
    (get_or (industry i) "N/A")
    (get_or (marketCap i) 0)
    (get_or (trailingPE i) 0)
    (get_or (dividendYield i) 0)
    (calculate_volatility np_sqrt prov "1y" true self)
    (calculate_sharpe_ratio np_sqrt prov "1y" (2 # 100) self).
End Stock.

(** ** [portfolio.py]: the portfolio aggregate *)

Module Portfolio.
Record t : Type := mk {
  name : string;
  stocks : dict Stock.t;
  cash : Q;
  creation_date : datetime;
  metadata : dict string
}.

Definition set_stocks (v : dict Stock.t) (self : t) : t :=
  mk (name self) v (cash self) (creation_date self) (metadata self).

Definition set_cash (v : Q) (self : t) : t :=
  mk (name self) (stocks self) v (creation_date self) (metadata self).

(** [Portfolio.__init__]. *)
Definition init (now : datetime) (name : string) (cash : Q) : t :=
  mk name [] cash now [].

(** [Portfolio.add_stock].  The holding in the mapping is the object the
    lot-accounting call mutates, so its state is written back whatever the
    outcome of that call. *)
Definition add_stock (now : datetime) (symbol : string) (n purchase_price : Q)
    (name : option string) (self : t) : result unit * t :=
  let symbol := upper symbol in
  let held :=
    match dict_get symbol (stocks self) with
    | Some stock =>
        let (r, stock) :=
          Stock.add_transaction now n purchase_price "buy" None 0 stock in
        (r, set_stocks (dict_set symbol stock (stocks self)) self)
    | None =>
        match Stock.init now symbol n purchase_price name with
        | Ok stock => (Ok tt, set_stocks (dict_set symbol stock (stocks self)) self)
        | Raise e => (Raise e, self)
        end
    end in
  match held with
  | (Raise e, self) => (Raise e, self)
  | (Ok _, self) =>
      let cost := n * purchase_price in
      if Qle_bool cost (cash self)
      then (Ok tt, set_cash (cash self - cost) self)
      else (Ok tt, self)
  end.

(** [Portfolio.remove_stock]. *)
Definition remove_stock (symbol : string) (self : t) : t :=
  let symbol := upper symbol in
  if dict_mem symbol (stocks self)
  then set_stocks (dict_del symbol (stocks self)) self
  else self.

Definition not_found_msg (symbol : string) : string :=
  "Acao " ++ symbol ++ " nao encontrada no portfolio".

(** [Portfolio.sell_stock]. *)
Definition sell_stock (now : datetime) (symbol : string) (n price : Q)
    (self : t) : result unit * t :=
  let symbol := upper symbol in
  match dict_get symbol (stocks self) with
  | None => (Raise (ValueError (not_found_msg symbol)), self)
  | Some stock =>
      let (r, stock) := Stock.add_transaction now n price "sell" None 0 stock in
      let self := set_stocks (dict_set symbol stock (stocks self)) self in
      match r with
      | Raise e => (Raise e, self)
      | Ok _ =>
          let self := set_cash (cash self + n * price) self in
          if Qeq_bool (Stock.shares stock) 0
          then (Ok tt, remove_stock symbol self)
          else (Ok tt, self)
      end
  end.

Definition total_value (prov : Provider) (self : t) : Q :=
  let stocks_value :=
    pysum (map (Stock.current_value prov) (dict_values (stocks self))) in
  stocks_value + cash self.

Definition total_invested (self : t) : Q :=
  pysum (map Stock.total_invested (dict_values (stocks self))).

Definition total_gain_loss (prov : Provider) (self : t) : Q :=
  total_value prov self - total_invested self - cash self.

Definition total_return (prov : Provider) (self : t) : Q :=
  if Qeq_bool (total_invested self) 0 then 0
  else (total_gain_loss prov self / total_invested self) * 100.

(** The [for] loop of [get_allocation]. *)
Fixpoint allocation_loop (prov : Provider) (total : Q)
    (items : list (string * Stock.t)) (allocation : dict Q) : result (dict Q) :=
  match items with
  | [] => Ok allocation
  | (symbol, stock) :: rest =>
      x <- pydiv (Stock.current_value prov stock) total ;;
      allocation_loop prov total rest (dict_set symbol (x * 100) allocation)
  end.

(** [Portfolio.get_allocation]. *)
Definition get_allocation (prov : Provider) (self : t) : result (dict Q) :=
  let total := total_value prov self in
  if Qeq_bool total 0 then Ok []
  else
    allocation <- allocation_loop prov total (stocks self) [] ;;
    if Qlt_bool 0 (cash self)
    then x <- pydiv (cash self) total ;; Ok (dict_set "CASH" (x * 100) allocation)
    else Ok allocation.

(** The [for] loop of [get_sector_allocation]. *)
Fixpoint sectors_loop (prov : Provider) (values : list Stock.t)
    (sectors : dict Q) : dict Q :=
  match values with
  | [] => sectors
  | stock :: rest =>
      let i := Stock.get_info prov stock in
      let sector := get_or (sector i) "Unknown" in
      let value := Stock.current_value prov stock in
      sectors_loop prov rest
        (match dict_get sector sectors with
         | Some v => dict_set sector (v + value) sectors
         | None => dict_set sector value sectors
         end)
  end.

(** The comprehension [{k: (v / total) * 100 for k, v in sectors.items()}]. *)
Fixpoint percent_of (total : Q) (items : list (string * Q)) : result (dict Q) :=
  match items with
  | [] => Ok []
  | (k, v) :: rest =>
      x <- pydiv v total ;;
      r <- percent_of total rest ;;
      Ok ((k, x * 100) :: r)
  end.

(** [Portfolio.get_sector_allocation]. *)
Definition get_sector_allocation (prov : Provider) (self : t)
  : result (dict Q) :=
  let total := total_value prov self in
  let sectors := sectors_loop prov (dict_values (stocks self)) [] in
  percent_of total sectors.

Definition scale_series (w : Q) (s : series) : series :=
  map (fun x => x * w) s.

(** Row-wise addition of two columns; a missing day counts 0
    ([fillna(0)]). *)
Fixpoint add_series (a b : series) : series :=
  match a, b with
  | [], _ => b
  | _, [] => a
  | x :: a', y :: b' => (x + y) :: add_series a' b'
  end.

(** [(returns_df * weights).sum(axis=1)]. *)
Definition weighted_rows (all_returns : list series) (weights : list Q)
  : series :=
  fold_left add_series (zip_with scale_series weights all_returns) [].

(** The [for] loop of [calculate_portfolio_returns]. *)
Fixpoint returns_loop (prov : Provider) (period : string) (total : Q)
    (values : list Stock.t) (all_returns : list series) (weights : list Q)
  : result (list series * list Q) :=
  match values with
  | [] => Ok (all_returns, weights)
  | stock :: rest =>
      let returns := Stock.calculate_returns prov period stock in
      if negb (series_empty returns) then
        weight <- pydiv (Stock.current_value prov stock) total ;;
        returns_loop prov period total rest
          (all_returns ++ [returns]) (weights ++ [weight])
      else returns_loop prov period total rest all_returns weights
  end.

(** [Portfolio.calculate_portfolio_returns]. *)
Definition calculate_portfolio_returns (prov : Provider) (period : string)
    (self : t) : result series :=
  match stocks self with
  | [] => Ok []
  | _ =>
      rw <- returns_loop prov period (total_value prov self)
              (dict_values (stocks self)) [] [] ;;
      let (all_returns, weights) := rw in
      match all_returns with
      | [] => Ok []
      | _ => Ok (weighted_rows all_returns weights)
      end
  end.

(** The mapping [calculate_metrics] returns; the key
    ['annualized_return'] is absent from the report on empty returns. *)
Record Metrics : Type := mkMetrics {
  m_total_return : Q;
  m_annualized_return : option Q;
  m_volatility : Q;
  m_sharpe_ratio : Q;
  m_max_drawdown : Q;
  m_var_95 : Q
}.

(** [Portfolio.calculate_metrics]. *)
Definition calculate_metrics (np_sqrt : Q -> Q) (prov : Provider)
    (period : string) (risk_free_rate : Q) (self : t) : result Metrics :=
  returns <- calculate_portfolio_returns prov period self ;;
  if series_empty returns then
    Ok (mkMetrics (total_return prov self) None 0 0 0 0)
  else
    let volatility := series_std np_sqrt returns * np_sqrt 252 in
    let excess_return := series_mean returns * 252 - risk_free_rate in
    let sharpe_ratio :=
      if negb (Qeq_bool volatility 0) then excess_return / volatility else 0 in
    let cumulative := cumprod_from 1 returns in
    let running := running_max cumulative in
    let drawdown := zip_with (fun c m => (c - m) / m) cumulative running in
    let max_drawdown := series_min drawdown in
    let var_95 := np_percentile returns 5 in
    Ok (mkMetrics (total_return prov self)
          (Some (series_mean returns * 252 * 100))
          volatility sharpe_ratio (max_drawdown * 100) (var_95 * 100)).

Record Analysis : Type := mkAnalysis {
  a_name : string;
  a_total_value : Q;
  a_total_invested : Q;
  a_total_gain_loss : Q;
  a_total_return : Q;
  a_cash : Q;
  a_metrics : Metrics;
  a_allocation : dict Q;
  a_sector_allocation : dict Q;
  a_stocks : dict Stock.Summary;
  a_num_stocks : nat
}.

(** [Portfolio.analyze]. *)
Definition analyze (np_sqrt : Q -> Q) (prov : Provider) (period : string)
    (self : t) : result Analysis :=
  metrics <- calculate_metrics np_sqrt prov period (2 # 100) self ;;
  allocation <- get_allocation prov self ;;
  sector_allocation <- get_sector_allocation prov self ;;
  let stocks_analysis :=
    fold_left
      (fun acc (item : string * Stock.t) =>
         dict_set (fst item) (Stock.get_summary np_sqrt prov (snd item)) acc)
      (stocks self) [] in
  Ok (mkAnalysis (name self) (total_value prov self) (total_invested self)
        (total_gain_loss prov self) (total_return prov self) (cash self)
        metrics allocation sector_allocation stocks_analysis
        (List.length (stocks self))).

(** The snapshot [to_dict] builds and [save] writes as JSON; [load] reads
    the same mapping back from the file. *)
Record StockData : Type := mkStockData {
  sd_shares : Q;
  sd_purchase_price : Q
}.

Record Snapshot : Type := mkSnapshot {
  snap_name : string;
  snap_cash : Q;
  snap_creation_date : datetime;
  snap_stocks : dict StockData;
  snap_metadata : dict string
}.

(** [Portfolio.to_dict]. *)
Definition to_dict (self : t) : Snapshot :=
  mkSnapshot (name self) (cash self) (creation_date self)
    (map (fun item : string * Stock.t =>
            (fst item,
             mkStockData (Stock.shares (snd item))
               (Stock.purchase_price (snd item))))
         (stocks self))
    (metadata self).

(** [Portfolio.save]: the file holds the snapshot. *)
Definition save (self : t) : Snapshot := to_dict self.

(** The [for] loop of [load]. *)
Fixpoint load_loop (now : datetime) (items : list (string * StockData))
    (portfolio : t) : result unit * t :=
  match items with
  | [] => (Ok tt, portfolio)
  | (symbol, stock_data) :: rest =>
      match add_stock now symbol (sd_shares stock_data)
              (sd_purchase_price stock_data) None portfolio with
      | (Ok _, portfolio) => load_loop now rest portfolio
      | (Raise e, portfolio) => (Raise e, portfolio)
      end
  end.

(** [Portfolio.load]. *)
Definition load (now : datetime) (data : Snapshot) : result t :=
  let portfolio := init now (snap_name data) (snap_cash data) in
  let portfolio :=
    mk (name portfolio) (stocks portfolio) (cash portfolio)
      (snap_creation_date data) (snap_metadata data) in
  match load_loop now (snap_stocks data) portfolio with
  | (Ok _, portfolio) => Ok portfolio
  | (Raise e, _) => Raise e
  end.
End Portfolio.

(** ** [advanced_optimization.py]: the Monte Carlo optimizer *)

Module PortfolioOptimizer.
Record t : Type := mk {
  returns_data : list (string * series);
  cov_matrix : list (list Q)
}.

Definition dot (a b : list Q) : Q := pysum (zip_with Qmult a b).

Definition mat_vec (m : list (list Q)) (v : list Q) : list Q :=
  map (fun row => dot row v) m.

(** [weights /= np.sum(weights)]. *)
Definition normalize (weights : list Q) : list Q :=
  let total := pysum weights in
  map (fun w => w / total) weights.

(** [np.argmax]: the first index of the largest entry. *)
Fixpoint argmax_from (best : Q) (best_i i : nat) (l : list Q) : nat :=
  match l with
  | [] => best_i
  | x :: r =>
      if Qlt_bool best x then argmax_from x i (S i) r
      else argmax_from best best_i (S i) r
  end.

Definition np_argmax (l : list Q) : nat :=
  match l with
  | [] => O
  | x :: r => argmax_from x 0 1 r
  end.

Section Generator.
(** numpy's global generator: its state, [np.random.random(n)], which
    draws [n] numbers of [0, 1) and advances the state, and
    [np.random.seed(k)], which replaces the state. *)
Variable rng : Type.
Variable np_random_random : nat -> rng -> list Q * rng.
Variable np_random_seed : Z -> rng.
Variable np_sqrt : Q -> Q.

(** [calculate_portfolio_performance]. *)
Definition calculate_portfolio_performance (self : t) (weights : list Q)
  : Q * Q :=
  let means := map (fun col : string * series => series_mean (snd col))
                 (returns_data self) in
  let returns := pysum (zip_with Qmult means weights) * 252 in
  let std := np_sqrt (dot weights (mat_vec (cov_matrix self) weights)) in
  (returns, std).

(** One row per simulated portfolio: return, volatility, Sharpe ratio
    and the iteration number, the four rows of [results]. *)
Definition row : Type := (Q * Q * Q * Q)%type.

Definition row_sharpe (r : row) : Q := snd (fst r).
Definition row_index (r : row) : Q := snd r.

(** The simulation loop, from iteration [i] on, for [count] iterations. *)
Fixpoint simulate (self : t) (risk_free_rate : Q) (num_assets : nat)
    (count : nat) (i : Z) (g : rng) : list row * rng :=
  match count with
  | O => ([], g)
  | S count' =>
      let (weights, g) := np_random_random num_assets g in
      let weights := normalize weights in
      let (portfolio_return, portfolio_std) :=
        calculate_portfolio_performance self weights in
      let sharpe := (portfolio_return - risk_free_rate) / portfolio_std in
      let (rest, g) :=
        simulate self risk_free_rate num_assets count' (i + 1)%Z g in
      ((portfolio_return, portfolio_std, sharpe, inject_Z i) :: rest, g)
  end.

Definition num_portfolios : nat := Z.to_nat 10000.

(** [optimize_sharpe_ratio], run from the generator state [g]. *)
Definition optimize_sharpe_ratio (self : t) (risk_free_rate : Q) (g : rng)
  : list (string * Q) :=
  let num_assets := List.length (returns_data self) in
  let (results, _) :=
    simulate self risk_free_rate num_assets num_portfolios 0%Z g in
  let max_sharpe_idx := np_argmax (map row_sharpe results) in
  let g := np_random_seed
             (Qfloor (row_index (nth max_sharpe_idx results (0, 0, 0, 0)))) in
  let (optimal_weights, _) := np_random_random num_assets g in
  let optimal_weights := normalize optimal_weights in
  combine (map fst (returns_data self)) optimal_weights.

(** The weight vectors the loop draws, in order: what the loop body
    binds to [weights] at iterations [0 .. count-1]. *)
Fixpoint drawn_weights (num_assets : nat) (count : nat) (g : rng)
  : list (list Q) :=
  match count with
  | O => []
  | S count' =>
      let (weights, g) := np_random_random num_assets g in
      normalize weights :: drawn_weights num_assets count' g
  end.

Definition sharpe_of (self : t) (risk_free_rate : Q) (weights : list Q) : Q :=
  let (portfolio_return, portfolio_std) :=
    calculate_portfolio_performance self weights in
  (portfolio_return - risk_free_rate) / portfolio_std.

(** The other two searches.  Their outcome depends on volatilities that
    are not numbers, so here a float is a rational or NaN ([None]);
    rounding and overflow are not modelled. *)
Definition float : Type := option Q.

Definition fmul (a b : float) : float :=
  match a, b with
  | Some x, Some y => Some (x * y)
  | _, _ => None
  end.

Definition fadd (a b : float) : float :=
  match a, b with
  | Some x, Some y => Some (x + y)
  | _, _ => None
  end.

(** [np.dot] of two vectors: one NaN entry makes the product NaN. *)
Definition fdot (a b : list float) : float :=
  fold_left fadd (zip_with fmul a b) (Some 0).

(** [np.sum] of a pandas [Series], which is [Series.sum()]: the sum of the
    entries that are not NaN. *)
Definition sum_skipna (l : list float) : Q :=
  pysum (flat_map (fun x : float => match x with Some q => [q] | None => [] end) l).

(** [Series.mean()] of one column: NaN for a column without rows. *)
Definition mean_nan (s : series) : float :=
  if series_empty s then None else Some (series_mean s).

(** The two attributes the searches read, [returns_data] and [cov_matrix],
    with covariances that may be NaN (as those of a one-row frame are). *)
Record stats : Type := mkStats {
  stats_returns : list (string * series);
  stats_cov : list (list float)
}.

(** [weights /= np.sum(weights)] on draws of [0, 1): a zero sum means that
    every draw is 0 and every quotient NaN. *)
Definition normalize_nan (weights : list Q) : list float :=
  let total := pysum weights in
  if Qeq_bool total 0 then map (fun _ => None) weights
  else map (fun w => Some (w / total)) weights.

(** [np.sqrt]: NaN on NaN and on a negative number. *)
Definition sqrt_nan (x : float) : float :=
  match x with
  | Some q => if Qlt_bool q 0 then None else Some (np_sqrt q)
  | None => None
  end.

(** [calculate_portfolio_performance] on such values. *)
Definition performance (self : stats) (weights : list float) : Q * float :=
  let means := map (fun col : string * series => mean_nan (snd col))
                 (stats_returns self) in
  let returns := sum_skipna (zip_with fmul means weights) * 252 in
  let std :=
    sqrt_nan (fdot weights (map (fun row => fdot row weights) (stats_cov self))) in
  (returns, std).

(** [min_variance]: [float('inf')] until the first update. *)
Inductive bound : Type :=
| Infinity
| Least (v : Q).

(** [portfolio_std < min_variance]; a comparison with NaN is false. *)
Definition below (portfolio_std : float) (min_variance : bound) : bool :=
  match portfolio_std, min_variance with
  | Some s, Infinity => true
  | Some s, Least v => Qlt_bool s v
  | None, _ => false
  end.

(** [min_variance = portfolio_std], reached only when the test passed. *)
Definition lowered (portfolio_std : float) (min_variance : bound) : bound :=
  match portfolio_std with
  | Some s => Least s
  | None => min_variance
  end.

(** The loop of [optimize_min_variance]; [optimal_weights] is [None] until
    the first update. *)
Fixpoint min_variance_loop (self : stats) (num_assets : nat) (count : nat)
    (g : rng) (min_variance : bound) (optimal_weights : option (list float))
  : option (list float) :=
  match count with
  | O => optimal_weights
  | S count' =>
      let (weights, g) := np_random_random num_assets g in
      let weights := normalize_nan weights in
      let (_, portfolio_std) := performance self weights in
      if below portfolio_std min_variance
      then min_variance_loop self num_assets count' g
             (lowered portfolio_std min_variance) (Some weights)
      else min_variance_loop self num_assets count' g
             min_variance optimal_weights
  end.

(** What a search hands back: a mapping, the [None] of
    [optimize_target_return], or the [TypeError] of [zip] on weights that
    are still [None]. *)
Inductive search_result : Type :=
| Allocation (weights : list (string * float))
| ReturnsNone
| RaisesTypeError.

(** [optimize_min_variance], run from the generator state [g]. *)
Definition optimize_min_variance (self : stats) (g : rng) : search_result :=
  let num_assets := List.length (stats_returns self) in
  match min_variance_loop self num_assets num_portfolios g Infinity None with
  | Some optimal_weights =>
      Allocation (combine (map fst (stats_returns self)) optimal_weights)
  | None => RaisesTypeError
  end.

(** The loop of [optimize_target_return]. *)
Fixpoint target_return_loop (self : stats) (target_return : Q)
    (num_assets : nat) (count : nat) (g : rng) (min_variance : bound)
    (optimal_weights : option (list float)) : option (list float) :=
  match count with
  | O => optimal_weights
  | S count' =>
      let (weights, g) := np_random_random num_assets g in
      let weights := normalize_nan weights in
      let (portfolio_return, portfolio_std) := performance self weights in
      if Qlt_bool (Qabs (portfolio_return - target_return)) (2 # 100) then
        if below portfolio_std min_variance
        then target_return_loop self target_return num_assets count' g
               (lowered portfolio_std min_variance) (Some weights)
        else target_return_loop self target_return num_assets count' g
               min_variance optimal_weights
      else target_return_loop self target_return num_assets count' g
             min_variance optimal_weights
  end.

(** [optimize_target_return], run from the generator state [g]. *)
Definition optimize_target_return (self : stats) (target_return : Q) (g : rng)
  : search_result :=
  let num_assets := List.length (stats_returns self) in
  match target_return_loop self target_return num_assets num_portfolios g
          Infinity None with
  | None => ReturnsNone
  | Some optimal_weights =>
      Allocation (combine (map fst (stats_returns self)) optimal_weights)
  end.
End Generator.
End PortfolioOptimizer.


(** ** [stock.py]: the time-keyed cache in front of the data source

    Here the data source is consulted at a time and may fail: [None] is a
    raised exception.  Time counts seconds; the two readings of the clock
    within one call are taken to be the same. *)

Module StockCache.
Record RawInfo : Type := mkRawInfo {
  currentPrice : option Q;
  regularMarketPrice : option Q;
  details : Info
}.

Record Market : Type := mkMarket {
  ticker_info : string -> datetime -> option RawInfo;
  ticker_history : string -> string -> string -> datetime -> option series
}.

(** What the cache holds: a price, an info mapping ([None] for [{}]) or a
    history frame. *)
Inductive value : Type :=
| Number (q : Q)
| Mapping (i : option RawInfo)
| Frame (s : series).

Record t : Type := mk {
  symbol : string;
  _cache : dict value;
  _cache_time : dict datetime
}.

(** [Stock._get_cached]; an entry without a time counts from
    [datetime.min] and is never fresh. *)
Definition _get_cached (now : datetime) (key : string) (ttl : Z) (self : t)
  : option value :=
  match dict_get key (_cache self) with
  | Some v =>
      match dict_get key (_cache_time self) with
      | Some at_time => if (now - at_time <? ttl)%Z then Some v else None
      | None => None
      end
  | None => None
  end.

(** [Stock._set_cache]. *)
Definition _set_cache (now : datetime) (key : string) (v : value) (self : t) : t :=
  mk (symbol self) (dict_set key v (_cache self))
    (dict_set key now (_cache_time self)).

(** [info.get('currentPrice') or info.get('regularMarketPrice', 0)]. *)
Definition quoted_price (i : RawInfo) : Q :=
  match currentPrice i with
  | Some x => if Qeq_bool x 0 then get_or (regularMarketPrice i) 0 else x
  | None => get_or (regularMarketPrice i) 0
  end.

(** [Stock.get_current_price]. *)
Definition get_current_price (market : Market) (now : datetime) (self : t)
  : value * t :=
  match _get_cached now "current_price" 60 self with
  | Some cached => (cached, self)
  | None =>
      match ticker_info market (symbol self) now with
      | Some i =>
          let price := quoted_price i in
          (Number price, _set_cache now "current_price" (Number price) self)
      | None => (Number 0, self)
      end
  end.

(** [Stock.get_info]. *)
Definition get_info (market : Market) (now : datetime) (self : t) : value * t :=
  match _get_cached now "info" 3600 self with
  | Some cached => (cached, self)
  | None =>
      match ticker_info market (symbol self) now with
      | Some i => (Mapping (Some i), _set_cache now "info" (Mapping (Some i)) self)
      | None => (Mapping None, self)
      end
  end.

(** [Stock.get_historical_data]. *)
Definition get_historical_data (market : Market) (now : datetime)
    (period interval : string) (self : t) : value * t :=
  let cache_key := "history_" ++ period ++ "_" ++ interval in
  match _get_cached now cache_key 3600 self with
  | Some cached => (cached, self)
  | None =>
      match ticker_history market (symbol self) period interval now with
      | Some history => (Frame history, _set_cache now cache_key (Frame history) self)
      | None => (Frame [], self)
      end
  end.
End StockCache.

(** ** [api/main.py]: the in-memory store of portfolios *)

Module Api.
Inductive response (A : Type) : Type :=
| Success (body : A)
| HTTPException (status_code : nat) (detail : string).

Arguments Success {A} body.
Arguments HTTPException {A} status_code detail.

(** [f"portfolio_{n}"]. *)
Definition portfolio_id (n : nat) : string :=
  "portfolio_" ++ NilEmpty.string_of_uint (Nat.to_uint n).

(** [create_portfolio]: the identifier is numbered by the size of the
    store. *)
Definition create_portfolio (now : datetime) (name : string) (cash : Q)
    (portfolios : dict Portfolio.t) : string * dict Portfolio.t :=
  let portfolio_id := portfolio_id (List.length portfolios + 1) in
  let portfolio := Portfolio.init now name cash in
  (portfolio_id, dict_set portfolio_id portfolio portfolios).

(** [delete_portfolio]. *)
Definition delete_portfolio (portfolio_id : string)
    (portfolios : dict Portfolio.t) : response unit * dict Portfolio.t :=
  if negb (dict_mem portfolio_id portfolios)
  then (HTTPException 404 "Portfolio nao encontrado", portfolios)
  else (Success tt, dict_del portfolio_id portfolios).
End Api.

(** ** Vocabulary of the statements *)

(** The records [add_transaction] appends for a sale and for a purchase. *)
Definition sale (now : datetime) (n price : Q) (date : option datetime) (fees : Q)
  : Transaction.t :=
  Transaction.mk (match date with None => now | Some d => d end)
    n price "sell" fees.

Definition purchase (now : datetime) (n price : Q) (date : option datetime) (fees : Q)
  : Transaction.t :=
  Transaction.mk (match date with None => now | Some d => d end)
    n price "buy" fees.

(** What a sale leaves behind, whatever its outcome: the record is in the
    log and the share count is reduced. *)
Definition after_sale (now : datetime) (n price : Q) (date : option datetime) (fees : Q)
    (h : Stock.t) : Stock.t :=
  Stock.mk (Stock.symbol h) (Stock.shares h - n) (Stock.purchase_price h)
    (Stock.name h) (Stock.transactions h ++ [sale now n price date fees]).

(** The portfolios the unit tests build. *)
Definition then_add (now : datetime) (symbol : string) (n purchase_price : Q)
    (p : Portfolio.t) : Portfolio.t :=
  snd (Portfolio.add_stock now symbol n purchase_price None p).

Definition test_add_stock_portfolio : Portfolio.t :=
  then_add 1 "AAPL" 10 150 (Portfolio.init 0 "Test Portfolio" 10000).

Definition test_save_and_load_portfolio : Portfolio.t :=
  then_add 2 "GOOGL" 5 140
    (then_add 1 "AAPL" 10 150 (Portfolio.init 0 "Test Portfolio" 5000)).

Definition test_sell_stock_portfolio : Portfolio.t :=
  then_add 1 "AAPL" 10 150 (Portfolio.init 0 "Test Portfolio" 0).

(** The holding [Stock.__init__] returns: the arguments as given, or, when
    both are positive, the state after the opening purchase is recorded on
    top of them. *)
Definition opened (now : datetime) (symbol : string) (n purchase_price : Q)
    (name : option string) : Stock.t :=
  if (Qlt_bool 0 n && Qlt_bool 0 purchase_price)%bool then
    snd (Stock.add_transaction now n purchase_price "buy" (Some now) 0
           (Stock.mk (upper symbol) n purchase_price name []))
  else Stock.mk (upper symbol) n purchase_price name [].

(** The holding after a further purchase through [add_stock]. *)
Definition extended (now : datetime) (n purchase_price : Q) (h : Stock.t)
  : Stock.t :=
  snd (Stock.add_transaction now n purchase_price "buy" None 0 h).

(** The portfolio holds [n] shares of [symbol] at average cost [price]. *)
Definition holds (p : Portfolio.t) (symbol : string) (n price : Q) : Prop :=
  match dict_get symbol (Portfolio.stocks p) with
  | Some h => Stock.shares h == n /\ Stock.purchase_price h == price
  | None => False
  end.

(** A provider that quotes every symbol at 100 and has no other data. *)
Definition quote_100 : Provider :=
  mkProvider (fun _ => 100) (fun _ => empty_info) (fun _ _ => []).

(** A portfolio opened with cash -100 that then buys AAPL, and one with
    cash 300 that buys the ticker CASH. *)
Definition overdrawn_portfolio : Portfolio.t :=
  then_add 1 "AAPL" 1 100 (Portfolio.init 0 "Overdrawn" (-100)).

Definition cash_ticker_portfolio : Portfolio.t :=
  then_add 1 "CASH" 1 100 (Portfolio.init 0 "Ticker" 300).

(** The percentage [get_allocation] files for one holding. *)
Definition share_of (prov : Provider) (total : Q) (item : string * Stock.t) : Q :=
  Stock.current_value prov (snd item) / total * 100.

(** The portfolio of [test_allocation], and one that holds the ticker CASH
    and has no cash. *)
Definition test_allocation_portfolio : Portfolio.t :=
  then_add 2 "GOOGL" 5 140
    (then_add 1 "AAPL" 10 150 (Portfolio.init 0 "Test Portfolio" 1000)).

Definition cash_ticker_unfunded_portfolio : Portfolio.t :=
  then_add 1 "CASH" 1 100 (Portfolio.init 0 "Ticker" 0).

(** A generator to run the optimizer on: the linear congruential generator
    of modulus 2^32, multiplier 1664525 and increment 1013904223; a draw is
    the new state over the modulus, and seeding sets the state. *)
Definition lcg_modulus : Z := (2 ^ 32)%Z.

Definition lcg_next (g : Z) : Z := ((1664525 * g + 1013904223) mod lcg_modulus)%Z.

Fixpoint lcg_random (n : nat) (g : Z) : list Q * Z :=
  match n with
  | O => ([], g)
  | S n' =>
      let g := lcg_next g in
      let (rest, g') := lcg_random n' g in
      (inject_Z g / inject_Z lcg_modulus :: rest, g')
  end.

Definition lcg_seed (k : Z) : Z := (k mod lcg_modulus)%Z.

(** A square root to six decimal places. *)
Definition sqrt_6 (q : Q) : Q :=
  inject_Z (Z.sqrt (Qnum q * 10 ^ 12 / Zpos (Qden q))) / inject_Z (10 ^ 6).

(** Two assets with three days of returns each, and the annualized sample
    covariance of these returns. *)
Definition two_assets : PortfolioOptimizer.t :=
  PortfolioOptimizer.mk
    [("AAPL", [1 # 100; 3 # 100; 2 # 100]);
     ("GOOGL", [2 # 100; - (1 # 100); 2 # 100])]
    [[252 # 10000; - (378 # 10000)];
     [- (378 # 10000); 756 # 10000]].

(** [DataFrame.cov() * 252], entry by entry: the annualized sample
    covariance of two columns. *)
Definition annualized_cov (a b : series) : Q :=
  let ma := series_mean a in
  let mb := series_mean b in
  pysum (zip_with (fun x y => (x - ma) * (y - mb)) a b) / (series_len a - 1)
  * 252.

(** Entry-wise [==] of two weight vectors. *)
Fixpoint weights_eqb (a b : list Q) : bool :=
  match a, b with
  | [], [] => true
  | x :: a', y :: b' => (Qeq_bool x y && weights_eqb a' b')%bool
  | _, _ => false
  end.

(** What [optimize_sharpe_ratio] draws after it has seeded the generator
    with the iteration number [k]. *)
Definition redraw {rng : Type} (np_random_random : nat -> rng -> list Q * rng)
    (np_random_seed : Z -> rng) (num_assets : nat) (k : nat) : list Q :=
  PortfolioOptimizer.normalize
    (fst (np_random_random num_assets (np_random_seed (Z.of_nat k)))).

(** No vector of [drawn], numbered from [k] on, is the redraw of its own
    number. *)
Fixpoint all_differ (redrawn : nat -> list Q) (k : nat) (drawn : list (list Q))
  : bool :=
  match drawn with
  | [] => true
  | w :: r => (negb (weights_eqb (redrawn k) w) && all_differ redrawn (S k) r)%bool
  end.

(** The holding after a purchase with fees, and its log entry for a
    transaction of any kind. *)
Definition bought (now : datetime) (n price fees : Q) (h : Stock.t) : Stock.t :=
  snd (Stock.add_transaction now n price "buy" None fees h).

Definition logged (now : datetime) (n price : Q) (kind : string)
    (date : option datetime) (fees : Q) : Transaction.t :=
  Transaction.mk (match date with None => now | Some d => d end)
    n price kind fees.

(** The value of the holdings, without the cash. *)
Definition stocks_value (prov : Provider) (p : Portfolio.t) : Q :=
  pysum (map (Stock.current_value prov) (dict_values (Portfolio.stocks p))).

(** A provider whose price fetches fail (price 0) while a two-day history
    of AAPL is still served. *)
Definition history_only : Provider :=
  mkProvider (fun _ => 0) (fun _ => empty_info)
    (fun symbol _ => if String.eqb symbol "AAPL" then [100; 101] else []).

(** What [add_stock] leaves of cash [c] for a purchase of cost [cost]. *)
Definition pay (c cost : Q) : Q := if Qle_bool cost c then c - cost else c.

(** A holding as [load] files it: opened anew from its share count and its
    average cost. *)
Definition reopen (now : datetime) (item : string * Stock.t) : string * Stock.t :=
  (fst item,
   opened now (fst item) (Stock.shares (snd item))
     (Stock.purchase_price (snd item)) None).

(** The vectors the two searches draw, in order, NaN entries included. *)
Fixpoint drawn_vectors {rng : Type}
    (np_random_random : nat -> rng -> list Q * rng) (num_assets count : nat)
    (g : rng) : list (list PortfolioOptimizer.float) :=
  match count with
  | O => []
  | S count' =>
      let (weights, g) := np_random_random num_assets g in
      PortfolioOptimizer.normalize_nan weights
      :: drawn_vectors np_random_random num_assets count' g
  end.

(** The search both loops perform over the vectors drawn: of the vectors
    that [accept] lets through, keep the first of least volatility, starting
    from the pair found so far. *)
Fixpoint keep_min
    (std : list PortfolioOptimizer.float -> PortfolioOptimizer.float)
    (accept : list PortfolioOptimizer.float -> bool)
    (drawn : list (list PortfolioOptimizer.float))
    (min_variance : PortfolioOptimizer.bound)
    (optimal_weights : option (list PortfolioOptimizer.float))
  : option (list PortfolioOptimizer.float) :=
  match drawn with
  | [] => optimal_weights
  | w :: rest =>
      if (accept w && PortfolioOptimizer.below (std w) min_variance)%bool
      then keep_min std accept rest
             (PortfolioOptimizer.lowered (std w) min_variance) (Some w)
      else keep_min std accept rest min_variance optimal_weights
  end.

(** The return and the volatility [calculate_portfolio_performance] gives a
    weight vector, and the test of [optimize_target_return]. *)
Definition return_of (self : PortfolioOptimizer.stats)
    (w : list PortfolioOptimizer.float) : Q :=
  fst (PortfolioOptimizer.performance (fun x => x) self w).

Definition std_of (np_sqrt : Q -> Q) (self : PortfolioOptimizer.stats)
    (w : list PortfolioOptimizer.float) : PortfolioOptimizer.float :=
  snd (PortfolioOptimizer.performance np_sqrt self w).

Definition near_target (self : PortfolioOptimizer.stats) (target_return : Q)
    (w : list PortfolioOptimizer.float) : bool :=
  Qlt_bool (Qabs (return_of self w - target_return)) (2 # 100).

(** One asset with a single day of returns: its covariance is NaN. *)
Definition one_row : PortfolioOptimizer.stats :=
  PortfolioOptimizer.mkStats [("AAPL", [1 # 100])] [[None]].

(** [two_assets] as the two searches read it. *)
Definition two_assets_stats : PortfolioOptimizer.stats :=
  PortfolioOptimizer.mkStats
    (PortfolioOptimizer.returns_data two_assets)
    (map (map (@Some Q)) (PortfolioOptimizer.cov_matrix two_assets)).

(** A provider that quotes every symbol at 100 and serves a three-day
    history of AAPL. *)
Definition quoted_history : Provider :=
  mkProvider (fun _ => 100) (fun _ => empty_info)
    (fun symbol _ => if String.eqb symbol "AAPL" then [100; 102; 51] else []).


(** The store after a series of creation requests on the empty store. *)
Definition created (requests : list (datetime * string * Q)) : dict Portfolio.t :=
  fold_left
    (fun portfolios (r : datetime * string * Q) =>
       snd (Api.create_portfolio (fst (fst r)) (snd (fst r)) (snd r) portfolios))
    requests [].

(** A data source that quotes every symbol at [price] at all times, one
    whose every fetch fails, and a holding whose cache is still empty. *)
Definition steady_market (price : Q) : StockCache.Market :=
  StockCache.mkMarket
    (fun _ _ => Some (StockCache.mkRawInfo (Some price) None empty_info))
    (fun _ _ _ _ => Some []).

Definition failing_market : StockCache.Market :=
  StockCache.mkMarket (fun _ _ => None) (fun _ _ _ _ => None).

Definition uncached (symbol : string) : StockCache.t :=
  StockCache.mk (upper symbol) [] [].

(** Every symbol of the portfolio is in upper case. *)
Definition upper_keys (p : Portfolio.t) : Prop :=
  Forall (fun k => upper k = k) (dict_keys (Portfolio.stocks p)).

(** * Properties *)

(** ** Comparisons and dictionaries *)

Lemma Qlt_bool_true (a b : Q) : Qlt_bool a b = true <-> a < b.
Proof.
  unfold Qlt_bool. rewrite negb_true_iff, <- not_true_iff_false, Qle_bool_iff.
  split; [apply Qnot_le_lt | apply Qlt_not_le].
Qed.

Lemma Qlt_bool_false (a b : Q) : Qlt_bool a b = false <-> b <= a.
Proof.
  unfold Qlt_bool. rewrite negb_false_iff. apply Qle_bool_iff.
Qed.

Lemma Qle_bool_false (a b : Q) : Qle_bool a b = false <-> b < a.
Proof.
  rewrite <- not_true_iff_false, Qle_bool_iff.
  split; [apply Qnot_le_lt | apply Qlt_not_le].
Qed.

Lemma Qeq_bool_false (a b : Q) : Qeq_bool a b = false <-> ~ a == b.
Proof.
  rewrite <- not_true_iff_false, Qeq_bool_iff. reflexivity.
Qed.

Ltac q_tests :=
  repeat match goal with
    | H : Qlt_bool _ _ = true |- _ => apply Qlt_bool_true in H
    | H : Qlt_bool _ _ = false |- _ => apply Qlt_bool_false in H
    | H : Qle_bool _ _ = true |- _ => apply Qle_bool_iff in H
    | H : Qle_bool _ _ = false |- _ => apply Qle_bool_false in H
    | H : Qeq_bool _ _ = true |- _ => apply Qeq_bool_iff in H
    | H : Qeq_bool _ _ = false |- _ => apply Qeq_bool_false in H
    end.

(** ** Lot accounting *)

Section LotAccounting.
Variable now : datetime.

Lemma sell_within_holding (h : Stock.t) (n price fees : Q)
    (date : option datetime) :
  n <= Stock.shares h ->
  Stock.add_transaction now n price "sell" date fees h
  = (Ok tt, after_sale now n price date fees h).
Proof.
  intros Hle. unfold Stock.add_transaction. cbn [String.eqb Ascii.eqb Bool.eqb].
  cbn [Stock.set_shares Stock.set_transactions Stock.shares Stock.symbol
       Stock.purchase_price Stock.name Stock.transactions].
  destruct (Qlt_bool (Stock.shares h - n) 0) eqn:E; [|reflexivity].
  q_tests. lra.
Qed.

Lemma sell_beyond_holding (h : Stock.t) (n price fees : Q)
    (date : option datetime) :
  Stock.shares h < n ->
  Stock.add_transaction now n price "sell" date fees h
  = (Raise (ValueError Stock.oversell_msg), after_sale now n price date fees h).
Proof.
  intros Hlt. unfold Stock.add_transaction. cbn [String.eqb Ascii.eqb Bool.eqb].
  cbn [Stock.set_shares Stock.set_transactions Stock.shares Stock.symbol
       Stock.purchase_price Stock.name Stock.transactions].
  destruct (Qlt_bool (Stock.shares h - n) 0) eqn:E; [reflexivity|].
  q_tests. lra.
Qed.

Lemma buy_state (h : Stock.t) (n price fees : Q) (date : option datetime) :
  Stock.add_transaction now n price "buy" date fees h
  = (Ok tt,
     Stock.mk (Stock.symbol h) (Stock.shares h + n)
       (if Qlt_bool 0 (Stock.shares h + n)
        then (Stock.shares h * Stock.purchase_price h
              + Transaction.total_cost (purchase now n price date fees))
             / (Stock.shares h + n)
        else 0)
       (Stock.name h)
       (Stock.transactions h ++ [purchase now n price date fees])).
Proof. reflexivity. Qed.

(** C10.  A sale of at most the shares held succeeds and changes only two
    things: the share count drops by the amount sold and one sell record is
    appended behind the unchanged earlier records.  The average cost basis,
    the symbol and the display name are what they were. *)
Theorem sell_only_reduces_shares_and_appends (h : Stock.t) (n price fees : Q)
    (date : option datetime) :
  n <= Stock.shares h ->
  exists h',
    Stock.add_transaction now n price "sell" date fees h = (Ok tt, h')
    /\ Stock.purchase_price h' = Stock.purchase_price h
    /\ Stock.shares h' = Stock.shares h - n
    /\ Stock.transactions h'
       = (Stock.transactions h ++ [sale now n price date fees])%list
    /\ Stock.symbol h' = Stock.symbol h
    /\ Stock.name h' = Stock.name h.
Proof.
  intros Hle. exists (after_sale now n price date fees h).
  split; [now apply sell_within_holding|].
  repeat split.
Qed.

(** C7.  A buy of [n] shares at [price] with [fees] on a holding of
    [shares h] at average cost [purchase_price h] yields [shares h + n]
    shares at average cost
    [(shares h * purchase_price h + n * price + fees) / (shares h + n)],
    the resulting share count being positive. *)
Theorem buy_averages_cost (h : Stock.t) (n price fees : Q)
    (date : option datetime) :
  0 < Stock.shares h + n ->
  exists h',
    Stock.add_transaction now n price "buy" date fees h = (Ok tt, h')
    /\ Stock.shares h' = Stock.shares h + n
    /\ Stock.purchase_price h'
       == (Stock.shares h * Stock.purchase_price h + n * price + fees)
          / (Stock.shares h + n).
Proof.
  intros Hpos. rewrite buy_state. eexists. split; [reflexivity|].
  cbn [Stock.shares Stock.purchase_price]. split; [reflexivity|].
  apply Qlt_bool_true in Hpos. rewrite Hpos.
  unfold Transaction.total_cost, purchase. cbn [Transaction.shares
    Transaction.price Transaction.fees].
  apply Qlt_bool_true in Hpos. field. lra.
Qed.
End LotAccounting.

(** A holding of 10 shares at 150 sells 3 at 160. *)
Lemma sell_only_reduces_shares_and_appends_witness :
  exists h',
    Stock.add_transaction 1 3 160 "sell" None 0 (Stock.mk "AAPL" 10 150 None [])
    = (Ok tt, h')
    /\ Stock.purchase_price h' = 150
    /\ Stock.shares h' = 10 - 3
    /\ Stock.transactions h' = ([] ++ [sale 1 3 160 None 0])%list
    /\ Stock.symbol h' = "AAPL"
    /\ Stock.name h' = None.
Proof.
  apply (sell_only_reduces_shares_and_appends 1
           (Stock.mk "AAPL" 10 150 None []) 3 160 0 None).
  vm_compute. discriminate.
Defined.

(** A holding of 10 shares at 150 buys 5 at 155. *)
Lemma buy_averages_cost_witness :
  exists h',
    Stock.add_transaction 1 5 155 "buy" None 0 (Stock.mk "AAPL" 10 150 None [])
    = (Ok tt, h')
    /\ Stock.shares h' = 10 + 5
    /\ Stock.purchase_price h' == (10 * 150 + 5 * 155 + 0) / (10 + 5).
Proof.
  apply (buy_averages_cost 1 (Stock.mk "AAPL" 10 150 None []) 5 155 0 None).
  vm_compute. reflexivity.
Defined.

(** The scenario of the lot-accounting contract: 10 shares at 150, buy 5 at
    155, gives 15 shares at 2275/15. *)
Example buy_scenario :
  let h' := snd (Stock.add_transaction 1 5 155 "buy" None 0
                   (Stock.mk "AAPL" 10 150 None [])) in
  Stock.shares h' == 15 /\ Stock.purchase_price h' == 2275 # 15
  /\ List.length (Stock.transactions h') = 1%nat.
Proof. vm_compute. repeat split. Qed.

(** C1.  The holding [Stock("AAPL", 5, 150)] has 10 shares.  Selling 15 of
    them raises [ValueError], but the call is not undone: the holding is
    left with -5 shares and the rejected sale is in its transaction log
    (the average cost is as before). *)
Theorem oversell_raises_after_mutating :
  exists h h',
    Stock.init 0 "AAPL" 5 150 None = Ok h
    /\ Stock.shares h == 10
    /\ Stock.add_transaction 1 15 160 "sell" None 0 h
       = (Raise (ValueError Stock.oversell_msg), h')
    /\ Stock.shares h' == -5
    /\ Stock.purchase_price h' == Stock.purchase_price h
    /\ Stock.transactions h' = (Stock.transactions h ++ [sale 1 15 160 None 0])%list.
Proof.
  eexists. eexists. split; [vm_compute; reflexivity|].
  split; [vm_compute; reflexivity|].
  split; [vm_compute; reflexivity|].
  repeat split.
Qed.

(** ** Symbols and dictionaries *)

Lemma upper_ascii_idem (c : ascii) : upper_ascii (upper_ascii c) = upper_ascii c.
Proof. destruct c as [[] [] [] [] [] [] [] []]; reflexivity. Qed.

Lemma upper_idem (s : string) : upper (upper s) = upper s.
Proof.
  induction s as [|c s IH]; [reflexivity|].
  cbn [upper]. now rewrite upper_ascii_idem, IH.
Qed.

Section DictFacts.
Context {V : Type}.
Implicit Types (d : dict V) (k : string) (v : V).

Lemma dict_get_set_same k v d : dict_get k (dict_set k v d) = Some v.
Proof.
  induction d as [|[k' v'] d IH]; cbn [dict_set dict_get].
  - now rewrite String.eqb_refl.
  - destruct (String.eqb k k') eqn:E; cbn [dict_get]; rewrite E; auto.
Qed.

Lemma dict_get_set_other k k' v d :
  k <> k' -> dict_get k' (dict_set k v d) = dict_get k' d.
Proof.
  intros Hne. induction d as [|[k0 v0] d IH]; cbn [dict_set dict_get].
  - apply not_eq_sym in Hne. apply String.eqb_neq in Hne. now rewrite Hne.
  - destruct (String.eqb k k0) eqn:E; cbn [dict_get].
    + apply String.eqb_eq in E. subst k0.
      apply not_eq_sym in Hne. apply String.eqb_neq in Hne. now rewrite Hne.
    + now rewrite IH.
Qed.

Lemma dict_get_del_same k d : dict_get k (dict_del k d) = None.
Proof.
  induction d as [|[k' v'] d IH]; cbn [dict_del dict_get]; [reflexivity|].
  destruct (String.eqb k k') eqn:E; cbn [dict_get]; [assumption|].
  now rewrite E.
Qed.

Lemma dict_get_del_other k k' d :
  k <> k' -> dict_get k' (dict_del k d) = dict_get k' d.
Proof.
  intros Hne. induction d as [|[k0 v0] d IH]; cbn [dict_del dict_get]; [reflexivity|].
  destruct (String.eqb k k0) eqn:E; cbn [dict_get].
  - apply String.eqb_eq in E. subst k0.
    apply not_eq_sym in Hne. apply String.eqb_neq in Hne. now rewrite Hne.
  - now rewrite IH.
Qed.

Lemma dict_get_none_keys k d : dict_get k d = None <-> ~ In k (dict_keys d).
Proof.
  induction d as [|[k' v'] d IH]; cbn [dict_get dict_keys map fst In].
  - tauto.
  - destruct (String.eqb k k') eqn:E.
    + apply String.eqb_eq in E. subst. split; [discriminate|tauto].
    + apply String.eqb_neq in E. rewrite IH. unfold dict_keys.
      split; [intros H [H'|H']; congruence|tauto].
Qed.

(** A key that is not in the dictionary goes last. *)
Lemma dict_set_new k v d : dict_get k d = None -> dict_set k v d = (d ++ [(k, v)])%list.
Proof.
  induction d as [|[k' v'] d IH]; cbn [dict_set dict_get]; [reflexivity|].
  destruct (String.eqb k k'); [discriminate|].
  intros H. cbn [app]. now rewrite IH.
Qed.

Lemma dict_values_app d d' :
  dict_values (d ++ d')%list = (dict_values d ++ dict_values d')%list.
Proof. apply map_app. Qed.

Lemma dict_keys_set_present k v d :
  dict_get k d <> None -> dict_keys (dict_set k v d) = dict_keys d.
Proof.
  induction d as [|[k' v'] d IH]; cbn [dict_set dict_get]; [congruence|].
  destruct (String.eqb k k') eqn:E; intros H; [reflexivity|].
  unfold dict_keys in *. cbn [map fst]. now rewrite IH.
Qed.

Lemma dict_wf_set k v d : dict_wf d -> dict_wf (dict_set k v d).
Proof.
  unfold dict_wf. intros Hwf. destruct (dict_get k d) eqn:E.
  - rewrite dict_keys_set_present; [assumption|congruence].
  - rewrite dict_set_new by assumption. unfold dict_keys.
    rewrite map_app. cbn [map fst]. apply NoDup_app_remove_l with (l := []).
    cbn [app]. rewrite <- (app_nil_r (_ ++ _)%list), <- app_assoc.
    apply NoDup_Add with (a := k) (l := map fst d); [|split].
    + cbn [app]. rewrite <- (app_nil_r (map fst d)) at 1. apply Add_app.
    + assumption.
    + now apply dict_get_none_keys.
Qed.

Lemma dict_keys_del_incl k d : incl (dict_keys (dict_del k d)) (dict_keys d).
Proof.
  induction d as [|[k' v'] d IH]; cbn [dict_del]; [apply incl_refl|].
  unfold dict_keys in *.
  destruct (String.eqb k k'); cbn [map fst].
  - now apply incl_tl.
  - apply incl_cons; [now left|now apply incl_tl].
Qed.

Lemma dict_wf_del k d : dict_wf d -> dict_wf (dict_del k d).
Proof.
  unfold dict_wf. induction d as [|[k' v'] d IH]; cbn [dict_del]; [auto|].
  unfold dict_keys in *. cbn [map fst]. intros Hwf.
  apply NoDup_cons_iff in Hwf as [Hnin Hwf].
  destruct (String.eqb k k'); [auto|].
  cbn [map fst]. apply NoDup_cons; [|auto].
  intros Hin. apply Hnin. now apply (dict_keys_del_incl k d).
Qed.
End DictFacts.

(** ** The portfolio aggregate *)

Section Aggregate.
Variable now : datetime.

Lemma init_opened (symbol : string) (n purchase_price : Q) (name : option string) :
  Stock.init now symbol n purchase_price name
  = Ok (opened now symbol n purchase_price name).
Proof.
  unfold Stock.init, opened.
  destruct (Qlt_bool 0 n && Qlt_bool 0 purchase_price)%bool; [|reflexivity].
  now rewrite buy_state.
Qed.

(** [add_stock] never raises; it files the opened or extended holding under
    the upper-cased symbol and pays from cash when cash covers the cost. *)
Lemma add_stock_state (symbol : string) (n purchase_price : Q)
    (name : option string) (p : Portfolio.t) :
  Portfolio.add_stock now symbol n purchase_price name p
  = (Ok tt,
     Portfolio.mk (Portfolio.name p)
       (dict_set (upper symbol)
          (match dict_get (upper symbol) (Portfolio.stocks p) with
           | Some h => extended now n purchase_price h
           | None => opened now (upper symbol) n purchase_price name
           end)
          (Portfolio.stocks p))
       (if Qle_bool (n * purchase_price) (Portfolio.cash p)
        then Portfolio.cash p - n * purchase_price
        else Portfolio.cash p)
       (Portfolio.creation_date p) (Portfolio.metadata p)).
Proof.
  unfold Portfolio.add_stock.
  destruct (dict_get (upper symbol) (Portfolio.stocks p)) as [h|].
  - unfold extended. rewrite buy_state. cbn [snd].
    cbn [Portfolio.set_stocks Portfolio.set_cash Portfolio.cash Portfolio.name
         Portfolio.stocks Portfolio.creation_date Portfolio.metadata].
    now destruct (Qle_bool (n * purchase_price) (Portfolio.cash p)).
  - rewrite init_opened.
    cbn [Portfolio.set_stocks Portfolio.set_cash Portfolio.cash Portfolio.name
         Portfolio.stocks Portfolio.creation_date Portfolio.metadata].
    now destruct (Qle_bool (n * purchase_price) (Portfolio.cash p)).
Qed.

(** The symbols of a portfolio stay distinct under [add_stock]. *)
Lemma add_stock_wf (symbol : string) (n purchase_price : Q)
    (name : option string) (p : Portfolio.t) :
  dict_wf (Portfolio.stocks p) ->
  dict_wf (Portfolio.stocks
             (snd (Portfolio.add_stock now symbol n purchase_price name p))).
Proof.
  intros Hwf. rewrite add_stock_state. cbn [snd Portfolio.stocks].
  now apply dict_wf_set.
Qed.

(** C4.  [add_stock] with [n] shares at [purchase_price] on a portfolio with
    cash [c] always succeeds; the cash becomes [c - n * purchase_price] when
    [c >= n * purchase_price] and stays [c] otherwise, so a buy never takes
    cash below zero.  In both cases the holding under the upper-cased symbol
    is extended or created: a holding already there gains [n] shares, takes
    the volume-weighted average cost and has the buy appended to its log; a
    new one is what the constructor builds from [n] and [purchase_price],
    its opening buy counted on top of them when both are positive.  No other
    symbol and no other field of the portfolio changes. *)
Theorem add_stock_deducts_only_covered_cost (symbol : string)
    (n purchase_price : Q) (name : option string) (p : Portfolio.t) :
  exists p',
    Portfolio.add_stock now symbol n purchase_price name p = (Ok tt, p')
    /\ (n * purchase_price <= Portfolio.cash p ->
        Portfolio.cash p' = Portfolio.cash p - n * purchase_price)
    /\ (~ n * purchase_price <= Portfolio.cash p ->
        Portfolio.cash p' = Portfolio.cash p)
    /\ (0 <= Portfolio.cash p -> 0 <= Portfolio.cash p')
    /\ dict_get (upper symbol) (Portfolio.stocks p')
       = Some (match dict_get (upper symbol) (Portfolio.stocks p) with
               | Some h =>
                   Stock.mk (Stock.symbol h) (Stock.shares h + n)
                     (if Qlt_bool 0 (Stock.shares h + n)
                      then (Stock.shares h * Stock.purchase_price h
                            + (n * purchase_price + 0))
                           / (Stock.shares h + n)
                      else 0)
                     (Stock.name h)
                     (Stock.transactions h
                        ++ [Transaction.mk now n purchase_price "buy" 0])%list
               | None =>
                   if (Qlt_bool 0 n && Qlt_bool 0 purchase_price)%bool
                   then
                     Stock.mk (upper symbol) (n + n)
                       (if Qlt_bool 0 (n + n)
                        then (n * purchase_price + (n * purchase_price + 0))
                             / (n + n)
                        else 0)
                       name [Transaction.mk now n purchase_price "buy" 0]
                   else Stock.mk (upper symbol) n purchase_price name []
               end)
    /\ (forall k, k <> upper symbol ->
        dict_get k (Portfolio.stocks p') = dict_get k (Portfolio.stocks p))
    /\ Portfolio.name p' = Portfolio.name p
    /\ Portfolio.creation_date p' = Portfolio.creation_date p
    /\ Portfolio.metadata p' = Portfolio.metadata p.
Proof.
  rewrite add_stock_state. eexists. split; [reflexivity|].
  cbn [Portfolio.cash Portfolio.stocks Portfolio.name Portfolio.creation_date
       Portfolio.metadata].
  assert (Hheld : dict_get (upper symbol)
                    (dict_set (upper symbol)
                       (match dict_get (upper symbol) (Portfolio.stocks p) with
                        | Some h => extended now n purchase_price h
                        | None => opened now (upper symbol) n purchase_price name
                        end) (Portfolio.stocks p))
                  = Some (match dict_get (upper symbol) (Portfolio.stocks p) with
                          | Some h =>
                              Stock.mk (Stock.symbol h) (Stock.shares h + n)
                                (if Qlt_bool 0 (Stock.shares h + n)
                                 then (Stock.shares h * Stock.purchase_price h
                                       + (n * purchase_price + 0))
                                      / (Stock.shares h + n)
                                 else 0)
                                (Stock.name h)
                                (Stock.transactions h
                                   ++ [Transaction.mk now n purchase_price "buy" 0])%list
                          | None =>
                              if (Qlt_bool 0 n && Qlt_bool 0 purchase_price)%bool
                              then
                                Stock.mk (upper symbol) (n + n)
                                  (if Qlt_bool 0 (n + n)
                                   then (n * purchase_price
                                         + (n * purchase_price + 0))
                                        / (n + n)
                                   else 0)
                                  name [Transaction.mk now n purchase_price "buy" 0]
                              else Stock.mk (upper symbol) n purchase_price name []
                          end)).
  { rewrite dict_get_set_same. f_equal.
    destruct (dict_get (upper symbol) (Portfolio.stocks p)) as [h|].
    - unfold extended. rewrite buy_state. reflexivity.
    - unfold opened. rewrite upper_idem.
      destruct (Qlt_bool 0 n && Qlt_bool 0 purchase_price)%bool; [|reflexivity].
      rewrite buy_state. reflexivity. }
  assert (Hother : forall k, k <> upper symbol ->
            dict_get k
              (dict_set (upper symbol)
                 (match dict_get (upper symbol) (Portfolio.stocks p) with
                  | Some h => extended now n purchase_price h
                  | None => opened now (upper symbol) n purchase_price name
                  end) (Portfolio.stocks p))
            = dict_get k (Portfolio.stocks p)).
  { intros k Hk. apply dict_get_set_other. congruence. }
  destruct (Qle_bool (n * purchase_price) (Portfolio.cash p)) eqn:E; q_tests.
  - repeat split; try tauto; try assumption; lra.
  - repeat split; try tauto; try assumption; lra.
Qed.

(** C3.  [add_stock] of [n > 0] shares at [purchase_price > 0] under a symbol
    the portfolio does not hold creates a holding whose log is the single
    buy of [n] shares at [purchase_price] and whose average cost is
    [purchase_price], but whose share count is [n + n]: the constructor
    stores [n] and then records the opening purchase on top of it. *)
Theorem add_stock_new_holding_counts_twice (symbol : string)
    (n purchase_price : Q) (name : option string) (p : Portfolio.t) :
  dict_get (upper symbol) (Portfolio.stocks p) = None ->
  0 < n -> 0 < purchase_price ->
  exists p' h,
    Portfolio.add_stock now symbol n purchase_price name p = (Ok tt, p')
    /\ dict_get (upper symbol) (Portfolio.stocks p') = Some h
    /\ Stock.shares h = n + n
    /\ Stock.purchase_price h == purchase_price
    /\ Stock.transactions h = [purchase now n purchase_price (Some now) 0].
Proof.
  intros Hnew Hn Hp. rewrite add_stock_state, Hnew. eexists. eexists.
  split; [reflexivity|]. cbn [Portfolio.stocks].
  split; [apply dict_get_set_same|].
  unfold opened.
  apply Qlt_bool_true in Hn, Hp. rewrite Hn, Hp. cbn [andb].
  rewrite buy_state. cbn [snd Stock.shares Stock.purchase_price Stock.transactions].
  apply Qlt_bool_true in Hn, Hp.
  assert (Hnn : Qlt_bool 0 (n + n) = true) by (apply Qlt_bool_true; lra).
  rewrite Hnn. repeat split.
  unfold Transaction.total_cost, purchase.
  cbn [Transaction.shares Transaction.price Transaction.fees]. field. lra.
Qed.

Lemma remove_stock_present (symbol : string) (p : Portfolio.t) :
  dict_get (upper symbol) (Portfolio.stocks p) <> None ->
  Portfolio.remove_stock symbol p
  = Portfolio.set_stocks (dict_del (upper symbol) (Portfolio.stocks p)) p.
Proof.
  intros H. unfold Portfolio.remove_stock, dict_mem.
  destruct (dict_get (upper symbol) (Portfolio.stocks p)); congruence.
Qed.

Lemma sell_stock_absent (symbol : string) (n price : Q) (p : Portfolio.t) :
  dict_get (upper symbol) (Portfolio.stocks p) = None ->
  Portfolio.sell_stock now symbol n price p
  = (Raise (ValueError (Portfolio.not_found_msg (upper symbol))), p).
Proof. intros H. unfold Portfolio.sell_stock. now rewrite H. Qed.

Lemma sell_stock_beyond (symbol : string) (n price : Q) (p : Portfolio.t)
    (h : Stock.t) :
  dict_get (upper symbol) (Portfolio.stocks p) = Some h ->
  Stock.shares h < n ->
  Portfolio.sell_stock now symbol n price p
  = (Raise (ValueError Stock.oversell_msg),
     Portfolio.set_stocks
       (dict_set (upper symbol) (after_sale now n price None 0 h)
          (Portfolio.stocks p)) p).
Proof.
  intros Hget Hlt. unfold Portfolio.sell_stock.
  now rewrite Hget, sell_beyond_holding.
Qed.

Lemma sell_stock_within (symbol : string) (n price : Q) (p : Portfolio.t)
    (h : Stock.t) :
  dict_get (upper symbol) (Portfolio.stocks p) = Some h ->
  n <= Stock.shares h ->
  Portfolio.sell_stock now symbol n price p
  = (Ok tt,
     Portfolio.mk (Portfolio.name p)
       (if Qeq_bool (Stock.shares h - n) 0
        then dict_del (upper symbol)
               (dict_set (upper symbol) (after_sale now n price None 0 h)
                  (Portfolio.stocks p))
        else dict_set (upper symbol) (after_sale now n price None 0 h)
               (Portfolio.stocks p))
       (Portfolio.cash p + n * price)
       (Portfolio.creation_date p) (Portfolio.metadata p)).
Proof.
  intros Hget Hle. unfold Portfolio.sell_stock.
  rewrite Hget, sell_within_holding by assumption.
  cbn [after_sale Stock.shares].
  destruct (Qeq_bool (Stock.shares h - n) 0); [|reflexivity].
  rewrite remove_stock_present; rewrite upper_idem.
  - reflexivity.
  - cbn [Portfolio.set_cash Portfolio.set_stocks Portfolio.stocks].
    now rewrite dict_get_set_same.
Qed.

(** C8.  [sell_stock] on an absent (upper-cased) symbol raises the not-found
    error and leaves the portfolio as it was.  On a held symbol the sale
    succeeds exactly when the amount is within the shares held; a successful
    sale adds [n * price] to cash whatever the amounts, and the holding is
    gone from the portfolio if and only if its share count after the sale is
    0 (otherwise the reduced holding stays under the symbol). *)
Theorem sell_stock_outcomes (symbol : string) (n price : Q) (p : Portfolio.t) :
  (dict_get (upper symbol) (Portfolio.stocks p) = None ->
   Portfolio.sell_stock now symbol n price p
   = (Raise (ValueError (Portfolio.not_found_msg (upper symbol))), p))
  /\ (forall h,
        dict_get (upper symbol) (Portfolio.stocks p) = Some h ->
        (Stock.shares h < n ->
         fst (Portfolio.sell_stock now symbol n price p)
         = Raise (ValueError Stock.oversell_msg))
        /\ (n <= Stock.shares h ->
            exists p',
              Portfolio.sell_stock now symbol n price p = (Ok tt, p')
              /\ Portfolio.cash p' = Portfolio.cash p + n * price
              /\ (dict_get (upper symbol) (Portfolio.stocks p') = None
                  <-> Stock.shares h - n == 0)
              /\ (~ Stock.shares h - n == 0 ->
                  dict_get (upper symbol) (Portfolio.stocks p')
                  = Some (after_sale now n price None 0 h)))).
Proof.
  split; [apply sell_stock_absent|].
  intros h Hget. split.
  - intros Hlt. now rewrite (sell_stock_beyond _ _ _ _ h).
  - intros Hle. rewrite (sell_stock_within _ _ _ _ h) by assumption.
    eexists. split; [reflexivity|].
    cbn [Portfolio.cash Portfolio.stocks]. split; [reflexivity|].
    destruct (Qeq_bool (Stock.shares h - n) 0) eqn:E; q_tests.
    + rewrite dict_get_del_same. tauto.
    + rewrite dict_get_set_same. split; [|reflexivity].
      split; [discriminate | tauto].
Qed.
End Aggregate.

(** [test_sell_stock]: the portfolio holds AAPL and cash 0; selling 5 at 160
    succeeds, brings cash 800 and keeps the holding. *)
Lemma sell_stock_outcomes_witness :
  exists h p',
    dict_get "AAPL" (Portfolio.stocks test_sell_stock_portfolio) = Some h
    /\ Portfolio.sell_stock 2 "aapl" 5 160 test_sell_stock_portfolio = (Ok tt, p')
    /\ Portfolio.cash p' == 800
    /\ dict_get "AAPL" (Portfolio.stocks p') = Some (after_sale 2 5 160 None 0 h).
Proof.
  destruct (sell_stock_outcomes 2 "aapl" 5 160 test_sell_stock_portfolio)
    as [_ Hheld].
  eexists.
  destruct (Hheld _ eq_refl) as [_ Hsell].
  destruct Hsell as (p' & Hrun & Hcash & _ & Hkeep); [vm_compute; discriminate|].
  exists p'. split; [reflexivity|]. split; [exact Hrun|].
  split; [rewrite Hcash; reflexivity|].
  apply Hkeep. vm_compute. discriminate.
Defined.

(** [test_sell_all_shares_removes_stock] sells the 10 shares it bought and
    expects the holding gone; the holding has 20 shares, so it stays, and
    selling all 20 removes it. *)
Example sell_all_removes :
  dict_mem "AAPL"
    (Portfolio.stocks
       (snd (Portfolio.sell_stock 2 "AAPL" 10 160 test_sell_stock_portfolio)))
  = true
  /\ dict_mem "AAPL"
       (Portfolio.stocks
          (snd (Portfolio.sell_stock 2 "AAPL" 20 160 test_sell_stock_portfolio)))
     = false.
Proof. split; vm_compute; reflexivity. Qed.

Lemma add_stock_deducts_only_covered_cost_witness :
  exists p',
    Portfolio.add_stock 1 "aapl" 10 150 None (Portfolio.init 0 "Test Portfolio" 10000)
    = (Ok tt, p')
    /\ Portfolio.cash p' == 8500
    /\ 0 <= Portfolio.cash p'
    /\ dict_mem "AAPL" (Portfolio.stocks p') = true.
Proof.
  destruct (add_stock_deducts_only_covered_cost 1 "aapl" 10 150 None
              (Portfolio.init 0 "Test Portfolio" 10000))
    as (p' & Hrun & Hpay & _ & Hpos & Hget & _).
  exists p'. split; [exact Hrun|].
  split; [rewrite Hpay; [reflexivity | vm_compute; discriminate]|].
  split; [apply Hpos; vm_compute; discriminate|].
  unfold dict_mem. change (upper "aapl") with "AAPL" in Hget. now rewrite Hget.
Defined.

Lemma add_stock_new_holding_counts_twice_witness :
  exists p' h,
    Portfolio.add_stock 1 "AAPL" 10 150 None (Portfolio.init 0 "Test Portfolio" 10000)
    = (Ok tt, p')
    /\ dict_get (upper "AAPL") (Portfolio.stocks p') = Some h
    /\ Stock.shares h = 10 + 10
    /\ Stock.purchase_price h == 150
    /\ Stock.transactions h = [purchase 1 10 150 (Some 1%Z) 0].
Proof.
  apply (add_stock_new_holding_counts_twice 1 "AAPL" 10 150 None
           (Portfolio.init 0 "Test Portfolio" 10000)).
  - reflexivity.
  - reflexivity.
  - reflexivity.
Defined.

(** [test_add_stock_to_portfolio] expects 10 shares after
    [add_stock("AAPL", 10, 150)]; the holding has 20. *)
Example test_add_stock_shares :
  option_map Stock.shares
    (dict_get "AAPL" (Portfolio.stocks test_add_stock_portfolio))
  = Some (10 + 10)
  /\ ~ 10 + 10 == 10.
Proof. split; [reflexivity | vm_compute; discriminate]. Qed.

(** ** Snapshots *)

(** A portfolio with one holding of [n > 0] shares at average cost [c > 0]
    comes back from its snapshot with [n + n] shares, and with the cost of
    the reloaded shares taken from its cash when the cash covers it. *)
Lemma load_single_holding (now : datetime) (h : Stock.t) (p : Portfolio.t) :
  Portfolio.stocks p = [(Stock.symbol h, h)] ->
  0 < Stock.shares h -> 0 < Stock.purchase_price h ->
  exists loaded h',
    Portfolio.load now (Portfolio.save p) = Ok loaded
    /\ Portfolio.stocks loaded = [(upper (Stock.symbol h), h')]
    /\ Stock.shares h' = Stock.shares h + Stock.shares h
    /\ Portfolio.cash loaded
       = if Qle_bool (Stock.shares h * Stock.purchase_price h) (Portfolio.cash p)
         then Portfolio.cash p - Stock.shares h * Stock.purchase_price h
         else Portfolio.cash p.
Proof.
  intros Hst Hn Hc. unfold Portfolio.load, Portfolio.save, Portfolio.to_dict.
  rewrite Hst. cbn [map fst snd Portfolio.snap_stocks Portfolio.load_loop
                    Portfolio.sd_shares Portfolio.sd_purchase_price].
  rewrite add_stock_state.
  cbn [Portfolio.init Portfolio.stocks Portfolio.cash Portfolio.snap_cash
       Portfolio.snap_name Portfolio.name dict_get dict_set].
  eexists. eexists. split; [reflexivity|].
  cbn [Portfolio.stocks Portfolio.cash]. split; [reflexivity|].
  split; [|reflexivity].
  unfold opened. apply Qlt_bool_true in Hn, Hc. rewrite Hn, Hc. cbn [andb].
  now rewrite buy_state.
Qed.

(** C2.  The portfolio of [test_save_and_load] (cash 5000, then AAPL 10 at
    150 and GOOGL 5 at 140) has cash 2800 and holds 20 and 10 shares; saved
    and loaded back it keeps its name, its symbols and the average costs,
    but holds 40 and 20 shares and has cash 1400: [load] replays each
    holding as a purchase through [add_stock]. *)
Theorem save_load_alters_cash_and_shares :
  exists loaded,
    Portfolio.load 3 (Portfolio.save test_save_and_load_portfolio) = Ok loaded
    /\ Portfolio.name loaded = Portfolio.name test_save_and_load_portfolio
    /\ dict_keys (Portfolio.stocks loaded)
       = dict_keys (Portfolio.stocks test_save_and_load_portfolio)
    /\ Portfolio.cash test_save_and_load_portfolio == 2800
    /\ Portfolio.cash loaded == 1400
    /\ holds test_save_and_load_portfolio "AAPL" 20 150
    /\ holds loaded "AAPL" 40 150
    /\ holds test_save_and_load_portfolio "GOOGL" 10 140
    /\ holds loaded "GOOGL" 20 140.
Proof.
  eexists. split; [vm_compute; reflexivity|].
  repeat split.
Qed.

(** ** Allocation *)

Lemma fold_left_Qplus (l : list Q) (a : Q) :
  fold_left Qplus l a == a + fold_right Qplus 0 l.
Proof.
  revert a. induction l as [|x l IH]; intros a; cbn [fold_left fold_right].
  - lra.
  - rewrite IH. lra.
Qed.

Lemma pysum_fold_right (l : list Q) : pysum l == fold_right Qplus 0 l.
Proof. unfold pysum. rewrite fold_left_Qplus. lra. Qed.

Lemma pysum_app (l m : list Q) : pysum (l ++ m) == pysum l + pysum m.
Proof.
  rewrite !pysum_fold_right.
  induction l as [|x l IH]; cbn [app fold_right]; [lra|]. rewrite IH. lra.
Qed.

Lemma pysum_percent {A : Type} (g : A -> Q) (total : Q) (l : list A) :
  ~ total == 0 ->
  pysum (map (fun x => g x / total * 100) l) == pysum (map g l) / total * 100.
Proof.
  intros Hne. rewrite !pysum_fold_right.
  induction l as [|x l IH]; cbn [map fold_right].
  - field. exact Hne.
  - rewrite IH. field. exact Hne.
Qed.

(** Entries filed one by one under keys that are new and distinct line up
    behind the entries already there. *)
Lemma set_each_new {A V : Type} (key : A -> string) (val : A -> V)
    (items : list A) (acc : dict V) :
  NoDup (dict_keys acc ++ map key items) ->
  fold_left (fun a it => dict_set (key it) (val it) a) items acc
  = (acc ++ map (fun it => (key it, val it)) items)%list.
Proof.
  revert acc. induction items as [|it items IH]; intros acc Hnd;
    cbn [fold_left map].
  - now rewrite app_nil_r.
  - cbn [map] in Hnd.
    assert (Hnew : dict_get (key it) acc = None).
    { apply dict_get_none_keys. apply NoDup_remove_2 in Hnd.
      intros Hin. apply Hnd. apply in_or_app. now left. }
    rewrite dict_set_new by assumption. rewrite IH.
    + now rewrite <- app_assoc.
    + unfold dict_keys in *. rewrite map_app, <- app_assoc. exact Hnd.
Qed.

Section Allocation.
Variable prov : Provider.

Lemma allocation_loop_fold (total : Q) (items : list (string * Stock.t))
    (acc : dict Q) :
  Qeq_bool total 0 = false ->
  Portfolio.allocation_loop prov total items acc
  = Ok (fold_left (fun a it => dict_set (fst it) (share_of prov total it) a) items acc).
Proof.
  intros Hne. revert acc.
  induction items as [|[symbol stock] items IH]; intros acc;
    cbn [Portfolio.allocation_loop fold_left]; [reflexivity|].
  unfold pydiv. rewrite Hne. cbn [rbind]. apply IH.
Qed.

Lemma allocation_loop_entries (total : Q) (p : Portfolio.t) :
  Qeq_bool total 0 = false ->
  dict_wf (Portfolio.stocks p) ->
  Portfolio.allocation_loop prov total (Portfolio.stocks p) []
  = Ok (map (fun it => (fst it, share_of prov total it)) (Portfolio.stocks p)).
Proof.
  intros Hne Hwf. rewrite allocation_loop_fold by assumption.
  now rewrite (set_each_new fst (share_of prov total)).
Qed.

Lemma total_value_split (p : Portfolio.t) :
  Portfolio.total_value prov p
  = pysum (map (fun it : string * Stock.t => Stock.current_value prov (snd it))
             (Portfolio.stocks p))
    + Portfolio.cash p.
Proof.
  unfold Portfolio.total_value, dict_values. now rewrite map_map.
Qed.

Lemma entries_values (total : Q) (items : list (string * Stock.t)) :
  dict_values (map (fun it => (fst it, share_of prov total it)) items)
  = map (fun it => Stock.current_value prov (snd it) / total * 100) items.
Proof. unfold dict_values. rewrite map_map. reflexivity. Qed.

Lemma entries_get_none (total : Q) (k : string) (items : list (string * Stock.t)) :
  dict_get k items = None ->
  dict_get k (map (fun it => (fst it, share_of prov total it)) items) = None.
Proof.
  rewrite !dict_get_none_keys. unfold dict_keys. now rewrite map_map.
Qed.

(** C9, as amended.  For a portfolio whose total value is positive, whose
    cash is not negative and which holds no symbol spelled CASH,
    [get_allocation] returns a mapping whose values sum to 100 (exactly,
    hence within 0.01), and the mapping has a CASH entry if and only if the
    cash is positive. *)
Theorem allocation_sums_to_100 (p : Portfolio.t) :
  dict_wf (Portfolio.stocks p) ->
  dict_get "CASH" (Portfolio.stocks p) = None ->
  0 <= Portfolio.cash p ->
  0 < Portfolio.total_value prov p ->
  exists a,
    Portfolio.get_allocation prov p = Ok a
    /\ pysum (dict_values a) == 100
    /\ Qabs (pysum (dict_values a) - 100) <= 1 # 100
    /\ (dict_mem "CASH" a = true <-> 0 < Portfolio.cash p).
Proof.
  intros Hwf Hticker Hcash Htotal.
  assert (Hne : ~ Portfolio.total_value prov p == 0) by lra.
  assert (Hnb : Qeq_bool (Portfolio.total_value prov p) 0 = false)
    by now apply Qeq_bool_false.
  pose proof (total_value_split p) as Hsplit.
  assert (Hsum : forall a, pysum (dict_values a) == 100 ->
                 Qabs (pysum (dict_values a) - 100) <= 1 # 100).
  { intros a Ha. rewrite Ha. vm_compute. discriminate. }
  unfold Portfolio.get_allocation, pydiv. cbv zeta. rewrite Hnb.
  rewrite allocation_loop_entries by assumption. cbn [rbind].
  destruct (Qlt_bool 0 (Portfolio.cash p)) eqn:Epos; q_tests.
  - eexists. split; [reflexivity|].
    assert (Hall : pysum (dict_values
                (dict_set "CASH" (Portfolio.cash p / Portfolio.total_value prov p * 100)
                   (map (fun it => (fst it, share_of prov (Portfolio.total_value prov p) it))
                      (Portfolio.stocks p)))) == 100).
    { rewrite dict_set_new by now apply entries_get_none.
      rewrite dict_values_app, pysum_app, entries_values, pysum_percent
        by assumption.
      cbv [dict_values pysum map snd fold_left] in *.
      rewrite Hsplit in *. field. exact Hne. }
    split; [exact Hall|]. split; [now apply Hsum|].
    unfold dict_mem. rewrite dict_get_set_same. tauto.
  - eexists. split; [reflexivity|].
    assert (Hall : pysum (dict_values
                (map (fun it => (fst it, share_of prov (Portfolio.total_value prov p) it))
                   (Portfolio.stocks p))) == 100).
    { rewrite entries_values, pysum_percent by assumption.
      assert (Hzero : Portfolio.cash p == 0) by lra.
      rewrite Hsplit in *. rewrite Hzero in *. field.
      intros E. apply Hne. lra. }
    split; [exact Hall|]. split; [now apply Hsum|].
    unfold dict_mem. rewrite entries_get_none by assumption.
    split; [discriminate|]. intros Hpos. lra.
Qed.
End Allocation.

Lemma allocation_sums_to_100_witness :
  exists a,
    Portfolio.get_allocation quote_100 test_allocation_portfolio = Ok a
    /\ pysum (dict_values a) == 100
    /\ Qabs (pysum (dict_values a) - 100) <= 1 # 100
    /\ (dict_mem "CASH" a = true <-> 0 < Portfolio.cash test_allocation_portfolio).
Proof.
  apply (allocation_sums_to_100 quote_100 test_allocation_portfolio).
  - repeat constructor; cbn; intuition discriminate.
  - reflexivity.
  - vm_compute. discriminate.
  - vm_compute. reflexivity.
Defined.

(** C9, as stated, fails.  With every symbol quoted at 100: a portfolio
    opened with cash -100 that holds 2 AAPL is worth 100 and its allocation
    is AAPL 200, which sums to 200; a portfolio with cash 200 that holds 2
    shares of the ticker CASH is worth 400 and its allocation is the single
    entry CASH 50; a portfolio without cash that holds the ticker CASH has a
    CASH entry. *)
Lemma allocation_off_100_or_cash_entry_without_cash :
  (0 < Portfolio.total_value quote_100 overdrawn_portfolio
   /\ exists a,
        Portfolio.get_allocation quote_100 overdrawn_portfolio = Ok a
        /\ pysum (dict_values a) == 200
        /\ ~ Qabs (pysum (dict_values a) - 100) <= 1 # 100)
  /\ (0 < Portfolio.total_value quote_100 cash_ticker_portfolio
      /\ exists a,
           Portfolio.get_allocation quote_100 cash_ticker_portfolio = Ok a
           /\ pysum (dict_values a) == 50
           /\ ~ Qabs (pysum (dict_values a) - 100) <= 1 # 100)
  /\ (0 < Portfolio.total_value quote_100 cash_ticker_unfunded_portfolio
      /\ exists a,
           Portfolio.get_allocation quote_100 cash_ticker_unfunded_portfolio = Ok a
           /\ dict_mem "CASH" a = true
           /\ ~ 0 < Portfolio.cash cash_ticker_unfunded_portfolio).
Proof.
  split; [|split].
  - split; [vm_compute; reflexivity|].
    eexists. split; [vm_compute; reflexivity|].
    split; [vm_compute; reflexivity|]. vm_compute. intros H. now apply H.
  - split; [vm_compute; reflexivity|].
    eexists. split; [vm_compute; reflexivity|].
    split; [vm_compute; reflexivity|]. vm_compute. intros H. now apply H.
  - split; [vm_compute; reflexivity|].
    eexists. split; [vm_compute; reflexivity|].
    split; [reflexivity|]. vm_compute. discriminate.
Qed.

(** ** Reports on degraded provider data *)

Lemma dict_set_nonempty {V : Type} (k : string) (v : V) (d : dict V) :
  dict_set k v d <> [].
Proof. destruct d as [|[k' v'] d]; cbn [dict_set]; [|destruct (String.eqb k k')]; discriminate. Qed.

Lemma sectors_loop_nonempty (prov : Provider) (values : list Stock.t)
    (sectors : dict Q) :
  values <> [] \/ sectors <> [] ->
  Portfolio.sectors_loop prov values sectors <> [].
Proof.
  revert sectors. induction values as [|stock values IH]; intros sectors H;
    cbn [Portfolio.sectors_loop].
  - destruct H; congruence.
  - apply IH. right.
    destruct (dict_get _ sectors); apply dict_set_nonempty.
Qed.

(** With at least one holding and a total value of 0, the sector report
    divides by zero. *)
Lemma sector_allocation_zero_total (prov : Provider) (p : Portfolio.t) :
  Portfolio.stocks p <> [] ->
  Portfolio.total_value prov p == 0 ->
  Portfolio.get_sector_allocation prov p = Raise ZeroDivisionError.
Proof.
  intros Hne Hzero. unfold Portfolio.get_sector_allocation.
  assert (Hs : Portfolio.sectors_loop prov (dict_values (Portfolio.stocks p)) [] <> []).
  { apply sectors_loop_nonempty. left. unfold dict_values.
    destruct (Portfolio.stocks p); [congruence|discriminate]. }
  destruct (Portfolio.sectors_loop prov (dict_values (Portfolio.stocks p)) [])
    as [|[k v] r]; [congruence|].
  cbn [Portfolio.percent_of]. unfold pydiv.
  apply Qeq_bool_iff in Hzero. now rewrite Hzero.
Qed.

Lemma returns_loop_degraded (period : string) (total : Q)
    (values : list Stock.t) (all_returns : list series) (weights : list Q) :
  Portfolio.returns_loop degraded period total values all_returns weights
  = Ok (all_returns, weights).
Proof.
  induction values as [|stock values IH]; cbn [Portfolio.returns_loop];
    [reflexivity|].
  exact IH.
Qed.

(** On degraded data the metrics report is the all-default one. *)
Lemma calculate_metrics_degraded (np_sqrt : Q -> Q) (period : string)
    (risk_free_rate : Q) (p : Portfolio.t) :
  Portfolio.calculate_metrics np_sqrt degraded period risk_free_rate p
  = Ok (Portfolio.mkMetrics (Portfolio.total_return degraded p) None 0 0 0 0).
Proof.
  unfold Portfolio.calculate_metrics, Portfolio.calculate_portfolio_returns.
  destruct (Portfolio.stocks p) as [|item items]; [reflexivity|].
  now rewrite returns_loop_degraded.
Qed.

(** [get_allocation] never raises, whatever the provider answers. *)
Lemma get_allocation_total (prov : Provider) (p : Portfolio.t) :
  exists a, Portfolio.get_allocation prov p = Ok a.
Proof.
  unfold Portfolio.get_allocation, pydiv. cbv zeta.
  destruct (Qeq_bool (Portfolio.total_value prov p) 0) eqn:E; [now eexists|].
  rewrite allocation_loop_fold by assumption. cbn [rbind].
  destruct (Qlt_bool 0 (Portfolio.cash p)); now eexists.
Qed.

(** C6.  With every provider fetch failing, the portfolio
    [Portfolio("Test Portfolio", cash=0)] after [add_stock("AAPL", 10, 150)]
    has total value 0; its metrics report is well-formed with volatility,
    Sharpe ratio, drawdown and VaR all 0, and its allocation is empty, but
    [get_sector_allocation] raises [ZeroDivisionError] and so does
    [analyze]. *)
Theorem degraded_sector_report_divides_by_zero (np_sqrt : Q -> Q) :
  Portfolio.total_value degraded test_sell_stock_portfolio == 0
  /\ (exists m,
        Portfolio.calculate_metrics np_sqrt degraded "1y" (2 # 100)
          test_sell_stock_portfolio = Ok m
        /\ Portfolio.m_volatility m = 0 /\ Portfolio.m_sharpe_ratio m = 0
        /\ Portfolio.m_max_drawdown m = 0 /\ Portfolio.m_var_95 m = 0)
  /\ Portfolio.get_allocation degraded test_sell_stock_portfolio = Ok []
  /\ Portfolio.get_sector_allocation degraded test_sell_stock_portfolio
     = Raise ZeroDivisionError
  /\ Portfolio.analyze np_sqrt degraded "1y" test_sell_stock_portfolio
     = Raise ZeroDivisionError.
Proof.
  assert (Hzero : Portfolio.total_value degraded test_sell_stock_portfolio == 0)
    by reflexivity.
  assert (Hsec : Portfolio.get_sector_allocation degraded test_sell_stock_portfolio
                 = Raise ZeroDivisionError).
  { apply sector_allocation_zero_total; [discriminate | exact Hzero]. }
  split; [exact Hzero|].
  split; [rewrite calculate_metrics_degraded; eexists; repeat split|].
  split; [reflexivity|].
  split; [exact Hsec|].
  unfold Portfolio.analyze. rewrite calculate_metrics_degraded, Hsec.
  reflexivity.
Qed.

(** ** The Max-Sharpe search *)

Section MaxSharpe.
Variable rng : Type.
Variable np_random_random : nat -> rng -> list Q * rng.
Variable np_random_seed : Z -> rng.
Variable np_sqrt : Q -> Q.
Variable self : PortfolioOptimizer.t.
Variable risk_free_rate : Q.
Variable num_assets : nat.

Local Abbreviation simulate :=
  (PortfolioOptimizer.simulate rng np_random_random np_sqrt self
     risk_free_rate num_assets).
Local Abbreviation drawn :=
  (PortfolioOptimizer.drawn_weights rng np_random_random num_assets).
Local Abbreviation sharpe :=
  (PortfolioOptimizer.sharpe_of np_sqrt self risk_free_rate).

(** The third row of [results] holds the Sharpe ratios of the drawn
    vectors, in the order drawn. *)
Lemma simulate_sharpes (count : nat) (i : Z) (g : rng) :
  map PortfolioOptimizer.row_sharpe (fst (simulate count i g))
  = map sharpe (drawn count g).
Proof.
  revert i g.
  induction count as [|count IH]; intros i g;
    cbn [PortfolioOptimizer.simulate PortfolioOptimizer.drawn_weights];
    [reflexivity|].
  destruct (np_random_random num_assets g) as [weights g'].
  cbn [map]. unfold PortfolioOptimizer.sharpe_of at 1.
  destruct (PortfolioOptimizer.calculate_portfolio_performance np_sqrt self
              (PortfolioOptimizer.normalize weights)) as [r sd].
  specialize (IH (i + 1)%Z g').
  destruct (PortfolioOptimizer.simulate rng np_random_random np_sqrt self
              risk_free_rate num_assets count (i + 1) g') as [rest g''].
  cbn [fst map PortfolioOptimizer.row_sharpe snd] in *.
  now rewrite IH.
Qed.

Lemma simulate_length (count : nat) (i : Z) (g : rng) :
  List.length (fst (simulate count i g)) = count.
Proof.
  revert i g.
  induction count as [|count IH]; intros i g;
    cbn [PortfolioOptimizer.simulate]; [reflexivity|].
  destruct (np_random_random num_assets g) as [weights g'].
  destruct (PortfolioOptimizer.calculate_portfolio_performance np_sqrt self
              (PortfolioOptimizer.normalize weights)) as [r sd].
  specialize (IH (i + 1)%Z g').
  destruct (PortfolioOptimizer.simulate rng np_random_random np_sqrt self
              risk_free_rate num_assets count (i + 1) g') as [rest g''].
  cbn [fst List.length] in *. now rewrite IH.
Qed.

(** The fourth row of [results] holds the iteration numbers. *)
Lemma simulate_index (count : nat) (i : Z) (g : rng) (k : nat) :
  (k < count)%nat ->
  PortfolioOptimizer.row_index (nth k (fst (simulate count i g)) (0, 0, 0, 0))
  = inject_Z (i + Z.of_nat k).
Proof.
  revert i g k.
  induction count as [|count IH]; intros i g k Hk; [lia|].
  cbn [PortfolioOptimizer.simulate].
  destruct (np_random_random num_assets g) as [weights g'].
  destruct (PortfolioOptimizer.calculate_portfolio_performance np_sqrt self
              (PortfolioOptimizer.normalize weights)) as [r sd].
  specialize (IH (i + 1)%Z g').
  destruct (PortfolioOptimizer.simulate rng np_random_random np_sqrt self
              risk_free_rate num_assets count (i + 1) g') as [rest g''].
  cbn [fst] in *. destruct k as [|k]; cbn [nth].
  - cbn [PortfolioOptimizer.row_index snd]. now rewrite Z.add_0_r.
  - rewrite IH by lia. f_equal. lia.
Qed.

Lemma drawn_length (count : nat) (g : rng) : List.length (drawn count g) = count.
Proof.
  revert g.
  induction count as [|count IH]; intros g;
    cbn [PortfolioOptimizer.drawn_weights]; [reflexivity|].
  destruct (np_random_random num_assets g) as [weights g'].
  cbn [List.length]. now rewrite IH.
Qed.
End MaxSharpe.

Lemma argmax_from_bound (l : list Q) (best : Q) (best_i i : nat) :
  (best_i < i)%nat ->
  (PortfolioOptimizer.argmax_from best best_i i l < i + List.length l)%nat.
Proof.
  revert best best_i i.
  induction l as [|x l IH]; intros best best_i i Hlt;
    cbn [PortfolioOptimizer.argmax_from List.length]; [lia|].
  destruct (Qlt_bool best x).
  - specialize (IH x i (S i)). lia.
  - specialize (IH best best_i (S i)). lia.
Qed.

Lemma np_argmax_bound (l : list Q) :
  l <> [] -> (PortfolioOptimizer.np_argmax l < List.length l)%nat.
Proof.
  destruct l as [|x l]; [congruence|]. intros _.
  cbn [PortfolioOptimizer.np_argmax List.length].
  pose proof (argmax_from_bound l x 0 1). lia.
Qed.

Lemma all_differ_nth (redrawn : nat -> list Q) (drawn : list (list Q)) (k j : nat) :
  all_differ redrawn k drawn = true ->
  (j < List.length drawn)%nat ->
  weights_eqb (redrawn (k + j)%nat) (nth j drawn []) = false.
Proof.
  revert k j. induction drawn as [|w drawn IH]; intros k j Hall Hj;
    cbn [List.length] in Hj; [lia|].
  cbn [all_differ] in Hall. apply andb_true_iff in Hall as [Hw Hrest].
  destruct j as [|j]; cbn [nth].
  - rewrite Nat.add_0_r. now apply negb_true_iff.
  - replace (k + S j)%nat with (S k + j)%nat by lia. apply IH; [assumption|lia].
Qed.

Lemma map_snd_combine {A B : Type} (l : list A) (m : list B) :
  (List.length m <= List.length l)%nat -> map snd (combine l m) = m.
Proof.
  revert m. induction l as [|a l IH]; intros [|b m] Hlen;
    cbn [List.length combine map snd] in *; try reflexivity; [lia|].
  rewrite IH; [reflexivity|lia].
Qed.

(** The mapping [optimize_sharpe_ratio] returns pairs the columns with the
    redraw for the number of the best iteration: of the vectors drawn in the
    loop it keeps only that number. *)
Lemma optimize_sharpe_ratio_redraws (rng : Type)
    (np_random_random : nat -> rng -> list Q * rng) (np_random_seed : Z -> rng)
    (np_sqrt : Q -> Q) (self : PortfolioOptimizer.t) (risk_free_rate : Q)
    (g : rng) :
  PortfolioOptimizer.optimize_sharpe_ratio rng np_random_random np_random_seed
    np_sqrt self risk_free_rate g
  = combine (map fst (PortfolioOptimizer.returns_data self))
      (redraw np_random_random np_random_seed
         (List.length (PortfolioOptimizer.returns_data self))
         (PortfolioOptimizer.np_argmax
            (map (PortfolioOptimizer.sharpe_of np_sqrt self risk_free_rate)
               (PortfolioOptimizer.drawn_weights rng np_random_random
                  (List.length (PortfolioOptimizer.returns_data self))
                  PortfolioOptimizer.num_portfolios g)))).
Proof.
  unfold PortfolioOptimizer.optimize_sharpe_ratio, redraw.
  set (n := List.length (PortfolioOptimizer.returns_data self)).
  pose proof (simulate_sharpes rng np_random_random np_sqrt self risk_free_rate
                n PortfolioOptimizer.num_portfolios 0%Z g) as Hsh.
  pose proof (simulate_length rng np_random_random np_sqrt self risk_free_rate
                n PortfolioOptimizer.num_portfolios 0%Z g) as Hlen.
  pose proof (simulate_index rng np_random_random np_sqrt self risk_free_rate
                n PortfolioOptimizer.num_portfolios 0%Z g) as Hidx.
  destruct (PortfolioOptimizer.simulate rng np_random_random np_sqrt self
              risk_free_rate n PortfolioOptimizer.num_portfolios 0 g)
    as [results g'].
  cbn [fst] in *. rewrite Hsh.
  set (idx := PortfolioOptimizer.np_argmax _).
  assert (Hb : (idx < PortfolioOptimizer.num_portfolios)%nat).
  { subst idx. rewrite <- Hsh.
    assert (Hl : List.length (map PortfolioOptimizer.row_sharpe results)
                 = PortfolioOptimizer.num_portfolios)
      by (now rewrite length_map).
    rewrite <- Hl. apply np_argmax_bound. intros Hnil.
    rewrite Hnil in Hl. discriminate Hl. }
  rewrite (Hidx idx Hb), Z.add_0_l, Qfloor_Z.
  now destruct (np_random_random n (np_random_seed (Z.of_nat idx))).
Qed.

(** The covariance matrix of [two_assets] is the one [prepare_data] derives
    from its returns. *)
Example two_assets_covariance :
  let columns := map snd (PortfolioOptimizer.returns_data two_assets) in
  Forall2 (Forall2 Qeq)
    (PortfolioOptimizer.cov_matrix two_assets)
    (map (fun a => map (fun b => annualized_cov a b) columns) columns).
Proof. repeat constructor. Qed.

(** On the linear congruential generator started at 42, none of the 10000
    two-asset vectors the loop draws is the redraw of its own number. *)
Lemma lcg_redraws_differ :
  all_differ (redraw lcg_random lcg_seed 2) 0
    (PortfolioOptimizer.drawn_weights Z lcg_random 2
       PortfolioOptimizer.num_portfolios 42%Z)
  = true.
Proof. vm_compute. reflexivity. Qed.

(** C5.  For every two-asset returns matrix, covariance matrix, risk-free
    rate and square root, with the generator started at 42: the weights
    [optimize_sharpe_ratio] returns are not the drawn vector of maximum
    Sharpe ratio.  The loop keeps the number of the best iteration only, and
    the weights returned are a new draw from the generator seeded with that
    number. *)
Theorem max_sharpe_returns_a_fresh_draw (np_sqrt : Q -> Q)
    (self : PortfolioOptimizer.t) (risk_free_rate : Q) :
  List.length (PortfolioOptimizer.returns_data self) = 2%nat ->
  weights_eqb
    (map snd
       (PortfolioOptimizer.optimize_sharpe_ratio Z lcg_random lcg_seed np_sqrt
          self risk_free_rate 42%Z))
    (nth
       (PortfolioOptimizer.np_argmax
          (map (PortfolioOptimizer.sharpe_of np_sqrt self risk_free_rate)
             (PortfolioOptimizer.drawn_weights Z lcg_random 2
                PortfolioOptimizer.num_portfolios 42%Z)))
       (PortfolioOptimizer.drawn_weights Z lcg_random 2
          PortfolioOptimizer.num_portfolios 42%Z)
       [])
  = false.
Proof.
  intros Hn. rewrite optimize_sharpe_ratio_redraws, Hn.
  set (drawn := PortfolioOptimizer.drawn_weights Z lcg_random 2
                  PortfolioOptimizer.num_portfolios 42%Z).
  set (idx := PortfolioOptimizer.np_argmax _).
  assert (Hlen : List.length drawn = PortfolioOptimizer.num_portfolios)
    by apply drawn_length.
  assert (Hb : (idx < List.length drawn)%nat).
  { subst idx. rewrite <- (length_map
      (PortfolioOptimizer.sharpe_of np_sqrt self risk_free_rate)).
    apply np_argmax_bound. intros Hnil.
    apply (f_equal (@List.length Q)) in Hnil.
    rewrite length_map, Hlen in Hnil. discriminate Hnil. }
  rewrite map_snd_combine.
  - apply (all_differ_nth (redraw lcg_random lcg_seed 2) drawn 0 idx);
      [apply lcg_redraws_differ | exact Hb].
  - rewrite length_map, Hn. unfold redraw, PortfolioOptimizer.normalize.
    rewrite length_map. cbn [lcg_random]. cbn [fst List.length]. lia.
Qed.

Lemma max_sharpe_returns_a_fresh_draw_witness :
  weights_eqb
    (map snd
       (PortfolioOptimizer.optimize_sharpe_ratio Z lcg_random lcg_seed sqrt_6
          two_assets (2 # 100) 42%Z))
    (nth
       (PortfolioOptimizer.np_argmax
          (map (PortfolioOptimizer.sharpe_of sqrt_6 two_assets (2 # 100))
             (PortfolioOptimizer.drawn_weights Z lcg_random 2
                PortfolioOptimizer.num_portfolios 42%Z)))
       (PortfolioOptimizer.drawn_weights Z lcg_random 2
          PortfolioOptimizer.num_portfolios 42%Z)
       [])
  = false.
Proof.
  apply (max_sharpe_returns_a_fresh_draw sqrt_6 two_assets (2 # 100)).
  reflexivity.
Defined.

(** * Further properties *)

(** ** Lot accounting: cost basis, order of purchases, other kinds *)

(** X1.  A purchase that leaves a positive share count raises the cost basis
    of the holding (shares times average cost) by exactly the total cost of
    the transaction, fees included. *)
Theorem buy_adds_total_cost_to_basis (now : datetime) (h : Stock.t)
    (n price fees : Q) :
  0 < Stock.shares h + n ->
  Stock.total_invested (bought now n price fees h)
  == Stock.total_invested h
     + Transaction.total_cost (logged now n price "buy" None fees).
Proof.
  intros Hpos. unfold bought. rewrite buy_state.
  unfold Stock.total_invested, Transaction.total_cost, purchase, logged.
  cbn [snd Stock.shares Stock.purchase_price Transaction.shares
       Transaction.price Transaction.fees].
  apply Qlt_bool_true in Hpos. rewrite Hpos. apply Qlt_bool_true in Hpos.
  field. lra.
Qed.

(** 10 shares at 150 buy 5 at 155 with a fee of 10. *)
Lemma buy_adds_total_cost_to_basis_witness :
  Stock.total_invested (bought 1 5 155 10 (Stock.mk "AAPL" 10 150 None []))
  == Stock.total_invested (Stock.mk "AAPL" 10 150 None [])
     + Transaction.total_cost (logged 1 5 155 "buy" None 10).
Proof.
  apply (buy_adds_total_cost_to_basis 1 (Stock.mk "AAPL" 10 150 None []) 5 155 10).
  reflexivity.
Defined.

(** X2.  Two purchases of positive amounts on a holding with a non-negative
    share count give the same share count and the same average cost in
    either order. *)
Theorem purchases_commute (now now' : datetime) (h : Stock.t)
    (n1 p1 f1 n2 p2 f2 : Q) :
  0 <= Stock.shares h -> 0 < n1 -> 0 < n2 ->
  Stock.shares (bought now' n2 p2 f2 (bought now n1 p1 f1 h))
  == Stock.shares (bought now' n1 p1 f1 (bought now n2 p2 f2 h))
  /\ Stock.purchase_price (bought now' n2 p2 f2 (bought now n1 p1 f1 h))
     == Stock.purchase_price (bought now' n1 p1 f1 (bought now n2 p2 f2 h)).
Proof.
  intros Hs H1 H2. unfold bought. rewrite !buy_state.
  cbn [snd Stock.shares Stock.purchase_price].
  unfold Transaction.total_cost, purchase.
  cbn [Transaction.shares Transaction.price Transaction.fees].
  assert (Qlt_bool 0 (Stock.shares h + n1) = true) as -> by (apply Qlt_bool_true; lra).
  assert (Qlt_bool 0 (Stock.shares h + n2) = true) as -> by (apply Qlt_bool_true; lra).
  assert (Qlt_bool 0 (Stock.shares h + n1 + n2) = true) as ->
    by (apply Qlt_bool_true; lra).
  assert (Qlt_bool 0 (Stock.shares h + n2 + n1) = true) as ->
    by (apply Qlt_bool_true; lra).
  split; [ring|]. field. split; lra.
Qed.

Lemma purchases_commute_witness :
  Stock.shares
    (bought 2 5 155 1 (bought 1 3 140 2 (Stock.mk "AAPL" 10 150 None [])))
  == Stock.shares
       (bought 2 3 140 2 (bought 1 5 155 1 (Stock.mk "AAPL" 10 150 None [])))
  /\ Stock.purchase_price
       (bought 2 5 155 1 (bought 1 3 140 2 (Stock.mk "AAPL" 10 150 None [])))
     == Stock.purchase_price
          (bought 2 3 140 2 (bought 1 5 155 1 (Stock.mk "AAPL" 10 150 None []))).
Proof.
  apply (purchases_commute 1 2 (Stock.mk "AAPL" 10 150 None []) 3 140 2 5 155 1);
    vm_compute; congruence.
Defined.

(** X3.  A transaction whose kind is neither buy nor sell is accepted and
    logged, and changes neither the share count nor the average cost. *)
Theorem other_kinds_are_only_logged (now : datetime) (h : Stock.t)
    (n price fees : Q) (kind : string) (date : option datetime) :
  kind <> "buy" -> kind <> "sell" ->
  Stock.add_transaction now n price kind date fees h
  = (Ok tt,
     Stock.mk (Stock.symbol h) (Stock.shares h) (Stock.purchase_price h)
       (Stock.name h)
       (Stock.transactions h ++ [logged now n price kind date fees])%list).
Proof.
  intros Hb Hs. unfold Stock.add_transaction.
  apply String.eqb_neq in Hb, Hs. rewrite Hb, Hs. reflexivity.
Qed.

Lemma other_kinds_are_only_logged_witness :
  Stock.add_transaction 1 4 2 "dividend" None 0 (Stock.mk "AAPL" 10 150 None [])
  = (Ok tt,
     Stock.mk "AAPL" 10 150 None ([] ++ [logged 1 4 2 "dividend" None 0])%list).
Proof.
  apply (other_kinds_are_only_logged 1 (Stock.mk "AAPL" 10 150 None [])
           4 2 0 "dividend" None); discriminate.
Defined.

(** ** The aggregate: removal, symbols, unpaid purchases, gain and loss *)

(** X4.  [remove_stock] is case-insensitive: afterwards nothing is held
    under the upper-cased symbol, every other symbol and the cash are as
    before, and removing a symbol that is not held changes nothing. *)
Theorem remove_stock_drops_only_that_symbol (symbol : string) (p : Portfolio.t) :
  dict_get (upper symbol) (Portfolio.stocks (Portfolio.remove_stock symbol p))
  = None
  /\ (forall k, k <> upper symbol ->
       dict_get k (Portfolio.stocks (Portfolio.remove_stock symbol p))
       = dict_get k (Portfolio.stocks p))
  /\ Portfolio.cash (Portfolio.remove_stock symbol p) = Portfolio.cash p
  /\ (dict_get (upper symbol) (Portfolio.stocks p) = None ->
      Portfolio.remove_stock symbol p = p).
Proof.
  unfold Portfolio.remove_stock, dict_mem.
  destruct (dict_get (upper symbol) (Portfolio.stocks p)) as [h|] eqn:E;
    cbn [Portfolio.set_stocks Portfolio.stocks Portfolio.cash].
  - split; [apply dict_get_del_same|].
    split; [intros k Hk; now apply dict_get_del_other|].
    split; [reflexivity | discriminate].
  - repeat split; auto.
Qed.

(** X5.  [add_stock] keeps one holding per upper-cased symbol: the list of
    symbols is unchanged when the symbol is already held, whatever its
    case, and grows by the upper-cased symbol at its end otherwise. *)
Theorem add_stock_symbols (now : datetime) (symbol : string)
    (n purchase_price : Q) (name : option string) (p : Portfolio.t) :
  dict_keys
    (Portfolio.stocks (snd (Portfolio.add_stock now symbol n purchase_price name p)))
  = if dict_mem (upper symbol) (Portfolio.stocks p)
    then dict_keys (Portfolio.stocks p)
    else (dict_keys (Portfolio.stocks p) ++ [upper symbol])%list.
Proof.
  rewrite add_stock_state. cbn [snd Portfolio.stocks]. unfold dict_mem.
  destruct (dict_get (upper symbol) (Portfolio.stocks p)) as [h|] eqn:E.
  - apply dict_keys_set_present. congruence.
  - rewrite dict_set_new by assumption. unfold dict_keys.
    now rewrite map_app.
Qed.



Lemma pysum_cons (x : Q) (l : list Q) : pysum (x :: l) == x + pysum l.
Proof. rewrite !pysum_fold_right. reflexivity. Qed.

Lemma pysum_map_minus {A : Type} (f g : A -> Q) (l : list A) :
  pysum (map (fun x => f x - g x) l) == pysum (map f l) - pysum (map g l).
Proof.
  induction l as [|x l IH]; cbn [map]; [reflexivity|].
  rewrite !pysum_cons, IH. ring.
Qed.

(** X7.  The total gain or loss of a portfolio is the sum of the gains and
    losses of its holdings: the cash added into the total value is
    subtracted again, so the figure does not depend on the cash balance. *)
Theorem total_gain_loss_ignores_cash (prov : Provider) (p : Portfolio.t) :
  Portfolio.total_gain_loss prov p
  == pysum (map (Stock.gain_loss prov) (dict_values (Portfolio.stocks p)))
  /\ forall c,
       Portfolio.total_gain_loss prov (Portfolio.set_cash c p)
       == Portfolio.total_gain_loss prov p.
Proof.
  assert (H : forall q, Portfolio.total_gain_loss prov q
              == pysum (map (Stock.gain_loss prov)
                          (dict_values (Portfolio.stocks q)))).
  { intros q. unfold Portfolio.total_gain_loss, Portfolio.total_value,
      Portfolio.total_invested, Stock.gain_loss.
    rewrite pysum_map_minus. ring. }
  split; [apply H|]. intros c. rewrite !H. reflexivity.
Qed.

(** ** Reports: sectors, entries of the allocation, zero totals *)

Lemma dict_values_set_new {V : Type} (k : string) (v : V) (d : dict V) :
  dict_get k d = None ->
  dict_values (dict_set k v d) = (dict_values d ++ [v])%list.
Proof. intros H. now rewrite dict_set_new, dict_values_app. Qed.

Lemma pysum_set_add (k : string) (v0 x : Q) (d : dict Q) :
  dict_get k d = Some v0 ->
  pysum (dict_values (dict_set k (v0 + x) d)) == pysum (dict_values d) + x.
Proof.
  induction d as [|[k' v'] d IH]; cbn [dict_get dict_set]; [discriminate|].
  destruct (String.eqb k k'); intros H.
  - injection H as ->. unfold dict_values. cbn [map snd].
    rewrite !pysum_cons. ring.
  - unfold dict_values in *. cbn [map snd]. rewrite !pysum_cons, IH by assumption.
    ring.
Qed.

Lemma sectors_loop_sum (prov : Provider) (values : list Stock.t) (sectors : dict Q) :
  pysum (dict_values (Portfolio.sectors_loop prov values sectors))
  == pysum (dict_values sectors) + pysum (map (Stock.current_value prov) values).
Proof.
  revert sectors. induction values as [|stock values IH]; intros sectors;
    cbn [Portfolio.sectors_loop map].
  - unfold pysum at 3. cbn [fold_left]. ring.
  - rewrite IH, pysum_cons.
    destruct (dict_get _ sectors) as [v|] eqn:E.
    + rewrite pysum_set_add by assumption. ring.
    + rewrite dict_values_set_new, pysum_app by assumption.
      unfold pysum at 2. cbn [fold_left]. ring.
Qed.

Lemma percent_of_nonzero (total : Q) (items : dict Q) :
  Qeq_bool total 0 = false ->
  Portfolio.percent_of total items
  = Ok (map (fun it => (fst it, snd it / total * 100)) items).
Proof.
  intros Hne. induction items as [|[k v] items IH];
    cbn [Portfolio.percent_of map]; [reflexivity|].
  unfold pydiv. rewrite Hne, IH. reflexivity.
Qed.

(** X8.  [get_sector_allocation] raises [ZeroDivisionError] exactly when the
    portfolio has a holding and its total value is 0; in every other case it
    returns a mapping. *)
Theorem sector_allocation_raises_exactly_on_zero_total (prov : Provider)
    (p : Portfolio.t) :
  (Portfolio.stocks p <> [] /\ Portfolio.total_value prov p == 0 ->
   Portfolio.get_sector_allocation prov p = Raise ZeroDivisionError)
  /\ (~ (Portfolio.stocks p <> [] /\ Portfolio.total_value prov p == 0) ->
      exists a, Portfolio.get_sector_allocation prov p = Ok a).
Proof.
  split.
  - intros [Hne Hz]. now apply sector_allocation_zero_total.
  - intros Hnot. unfold Portfolio.get_sector_allocation.
    destruct (Qeq_bool (Portfolio.total_value prov p) 0) eqn:E.
    + destruct (Portfolio.stocks p) as [|it its] eqn:Es.
      * cbn. now eexists.
      * exfalso. apply Hnot. split; [discriminate|]. now apply Qeq_bool_iff.
    + rewrite percent_of_nonzero by assumption. now eexists.
Qed.

(** X9.  When the total value is not 0, the sector percentages add up to the
    share of the holdings in the total value: 100 without the share of the
    cash, which has no sector. *)
Theorem sector_allocation_sums_to_stock_share (prov : Provider) (p : Portfolio.t) :
  ~ Portfolio.total_value prov p == 0 ->
  exists a,
    Portfolio.get_sector_allocation prov p = Ok a
    /\ pysum (dict_values a)
       == stocks_value prov p / Portfolio.total_value prov p * 100.
Proof.
  intros Hne. unfold Portfolio.get_sector_allocation.
  rewrite percent_of_nonzero by now apply Qeq_bool_false.
  eexists. split; [reflexivity|].
  pose proof (sectors_loop_sum prov (dict_values (Portfolio.stocks p)) []) as Hs.
  unfold dict_values at 1 3 in Hs. cbn [map] in Hs.
  unfold dict_values at 1. rewrite map_map. cbn [snd].
  rewrite (pysum_percent snd), Hs by assumption.
  unfold stocks_value, pysum at 1. cbn [fold_left].
  field. exact Hne.
Qed.

Lemma sector_allocation_sums_to_stock_share_witness :
  exists a,
    Portfolio.get_sector_allocation quote_100 test_allocation_portfolio = Ok a
    /\ pysum (dict_values a)
       == stocks_value quote_100 test_allocation_portfolio
          / Portfolio.total_value quote_100 test_allocation_portfolio * 100.
Proof.
  apply (sector_allocation_sums_to_stock_share quote_100 test_allocation_portfolio).
  vm_compute. discriminate.
Defined.

Lemma dict_get_entries (prov : Provider) (total : Q) (k : string)
    (items : dict Stock.t) (h : Stock.t) :
  dict_get k items = Some h ->
  dict_get k (map (fun it => (fst it, share_of prov total it)) items)
  = Some (Stock.current_value prov h / total * 100).
Proof.
  induction items as [|[k' h'] items IH]; cbn [dict_get map fst];
    [discriminate|].
  destruct (String.eqb k k'); [|exact IH].
  intros H. injection H as ->. reflexivity.
Qed.

(** X10.  When the symbols are distinct and the total value is not 0, the
    allocation files every holding, other than one under the key CASH, under
    its symbol with its current value as a percentage of the total value. *)
Theorem allocation_entry_of_holding (prov : Provider) (p : Portfolio.t)
    (symbol : string) (h : Stock.t) :
  dict_wf (Portfolio.stocks p) ->
  ~ Portfolio.total_value prov p == 0 ->
  dict_get symbol (Portfolio.stocks p) = Some h ->
  symbol <> "CASH" ->
  exists a,
    Portfolio.get_allocation prov p = Ok a
    /\ dict_get symbol a
       = Some (Stock.current_value prov h / Portfolio.total_value prov p * 100).
Proof.
  intros Hwf Hne Hget Hsym. apply Qeq_bool_false in Hne.
  unfold Portfolio.get_allocation, pydiv. cbv zeta. rewrite Hne.
  rewrite allocation_loop_entries by assumption. cbn [rbind].
  destruct (Qlt_bool 0 (Portfolio.cash p)); eexists; (split; [reflexivity|]).
  - rewrite dict_get_set_other by congruence. now apply dict_get_entries.
  - now apply dict_get_entries.
Qed.

Lemma allocation_entry_of_holding_witness :
  exists h a,
    dict_get "GOOGL" (Portfolio.stocks test_allocation_portfolio) = Some h
    /\ Portfolio.get_allocation quote_100 test_allocation_portfolio = Ok a
    /\ dict_get "GOOGL" a
       = Some (Stock.current_value quote_100 h
               / Portfolio.total_value quote_100 test_allocation_portfolio * 100).
Proof.
  destruct (dict_get "GOOGL" (Portfolio.stocks test_allocation_portfolio))
    as [h|] eqn:E; [|vm_compute in E; discriminate E].
  exists h.
  destruct (allocation_entry_of_holding quote_100 test_allocation_portfolio
              "GOOGL" h) as (a & Ha & Hg).
  - repeat constructor; cbn; intuition discriminate.
  - vm_compute. discriminate.
  - exact E.
  - discriminate.
  - exists a. split; [reflexivity|]. split; assumption.
Defined.

Lemma returns_loop_zero_total (prov : Provider) (period : string) (total : Q)
    (values : list Stock.t) (all_returns : list series) (weights : list Q) :
  total == 0 ->
  Exists (fun stock => Stock.calculate_returns prov period stock <> []) values ->
  Portfolio.returns_loop prov period total values all_returns weights
  = Raise ZeroDivisionError.
Proof.
  intros Hz Hex. apply Qeq_bool_iff in Hz.
  revert all_returns weights.
  induction values as [|stock values IH]; intros all_returns weights;
    [inversion Hex|].
  cbn [Portfolio.returns_loop].
  destruct (Stock.calculate_returns prov period stock) as [|r rs] eqn:E;
    cbn [series_empty negb].
  - apply IH. inversion Hex as [? ? H|]; [congruence | assumption].
  - unfold pydiv. now rewrite Hz.
Qed.

(** X11.  When some holding has return data while the total value of the
    portfolio is 0 (prices unavailable, no cash), the weight of that holding
    divides by zero: [calculate_portfolio_returns] and [calculate_metrics]
    raise [ZeroDivisionError]. *)
Theorem metrics_divide_by_zero_total (np_sqrt : Q -> Q) (prov : Provider)
    (period : string) (risk_free_rate : Q) (p : Portfolio.t) :
  Portfolio.total_value prov p == 0 ->
  Exists (fun stock => Stock.calculate_returns prov period stock <> [])
    (dict_values (Portfolio.stocks p)) ->
  Portfolio.calculate_portfolio_returns prov period p = Raise ZeroDivisionError
  /\ Portfolio.calculate_metrics np_sqrt prov period risk_free_rate p
     = Raise ZeroDivisionError.
Proof.
  intros Hz Hex.
  assert (H : Portfolio.calculate_portfolio_returns prov period p
              = Raise ZeroDivisionError).
  { unfold Portfolio.calculate_portfolio_returns.
    destruct (Portfolio.stocks p) as [|it its] eqn:Es; [inversion Hex|].
    now rewrite returns_loop_zero_total. }
  split; [exact H|]. unfold Portfolio.calculate_metrics. now rewrite H.
Qed.

Lemma metrics_divide_by_zero_total_witness :
  Portfolio.calculate_portfolio_returns history_only "1y" test_sell_stock_portfolio
  = Raise ZeroDivisionError
  /\ Portfolio.calculate_metrics sqrt_6 history_only "1y" (2 # 100)
       test_sell_stock_portfolio
     = Raise ZeroDivisionError.
Proof.
  apply (metrics_divide_by_zero_total sqrt_6 history_only "1y" (2 # 100)
           test_sell_stock_portfolio).
  - reflexivity.
  - apply Exists_cons_hd. discriminate.
Defined.

(** X12.  A portfolio without holdings is analyzed without error whatever
    its cash and whatever the provider: default metrics, no sector, no
    holding, and an allocation that is the single entry CASH at 100 when the
    cash is positive and empty otherwise. *)
Theorem analyze_without_holdings (np_sqrt : Q -> Q) (prov : Provider)
    (period : string) (now : datetime) (name : string) (c : Q) :
  exists r,
    Portfolio.analyze np_sqrt prov period (Portfolio.init now name c) = Ok r
    /\ Portfolio.a_metrics r = Portfolio.mkMetrics 0 None 0 0 0 0
    /\ Portfolio.a_sector_allocation r = []
    /\ Portfolio.a_stocks r = []
    /\ Portfolio.a_num_stocks r = 0%nat
    /\ (0 < c -> exists x, Portfolio.a_allocation r = [("CASH", x)] /\ x == 100)
    /\ (c <= 0 -> Portfolio.a_allocation r = []).
Proof.
  unfold Portfolio.analyze, Portfolio.calculate_metrics,
    Portfolio.calculate_portfolio_returns, Portfolio.get_sector_allocation,
    Portfolio.get_allocation, Portfolio.total_return, Portfolio.total_invested,
    Portfolio.total_value, pydiv.
  cbn [Portfolio.init Portfolio.stocks Portfolio.cash dict_values map pysum
       fold_left rbind series_empty Portfolio.sectors_loop Portfolio.percent_of
       Portfolio.allocation_loop].
  change (Qeq_bool 0 0) with true. cbv iota.
  destruct (Qeq_bool (0 + c) 0) eqn:E; cbn [rbind].
  - eexists. split; [reflexivity|]. cbn. repeat split.
    + intros Hc. q_tests. lra.
  - destruct (Qlt_bool 0 c) eqn:Ec; cbn [rbind dict_set];
      (eexists; split; [reflexivity|]); cbn; repeat split; q_tests.
    + intros _. eexists. split; [reflexivity|]. field. lra.
    + intros Hc. lra.
    + intros Hc. lra.
Qed.

(** ** Snapshots: what a round trip keeps *)

Lemma load_loop_state (now : datetime) (items : dict Stock.t) (q : Portfolio.t) :
  Forall (fun it => upper (fst it) = fst it) items ->
  NoDup (dict_keys (Portfolio.stocks q) ++ map fst items) ->
  Portfolio.load_loop now
    (map (fun item : string * Stock.t =>
            (fst item,
             Portfolio.mkStockData (Stock.shares (snd item))
               (Stock.purchase_price (snd item)))) items) q
  = (Ok tt,
     Portfolio.mk (Portfolio.name q)
       (Portfolio.stocks q ++ map (reopen now) items)%list
       (fold_left pay (map (fun it => Stock.total_invested (snd it)) items)
          (Portfolio.cash q))
       (Portfolio.creation_date q) (Portfolio.metadata q)).
Proof.
  revert q. induction items as [|[k h] items IH]; intros q Hup Hnd;
    cbn [map Portfolio.load_loop fold_left fst snd].
  - rewrite app_nil_r. now destruct q.
  - inversion Hup as [|? ? Hk Hup']; subst. cbn [fst] in Hk.
    cbn [Portfolio.sd_shares Portfolio.sd_purchase_price].
    rewrite add_stock_state, Hk.
    assert (Hnew : dict_get k (Portfolio.stocks q) = None).
    { apply dict_get_none_keys. apply NoDup_remove_2 in Hnd.
      intros Hin. apply Hnd. apply in_or_app. now left. }
    rewrite Hnew, dict_set_new by assumption.
    rewrite IH; cbn [Portfolio.stocks Portfolio.name Portfolio.cash
                     Portfolio.creation_date Portfolio.metadata].
    + unfold reopen at 2. cbn [fst snd]. now rewrite <- app_assoc.
    + assumption.
    + unfold dict_keys in *. rewrite map_app, <- app_assoc. exact Hnd.
Qed.

(** X13.  For a portfolio whose symbols are distinct and upper-case, [load]
    of the saved snapshot never raises and returns the same name, creation
    date, metadata and symbols in the same order; every holding is opened
    anew from its share count and average cost, so its log has at most one
    record, and the cash is what is left after paying, holding by holding,
    each cost basis that the remaining cash covers. *)
Theorem load_of_save (now : datetime) (p : Portfolio.t) :
  dict_wf (Portfolio.stocks p) ->
  Forall (fun k => upper k = k) (dict_keys (Portfolio.stocks p)) ->
  Portfolio.load now (Portfolio.save p)
  = Ok (Portfolio.mk (Portfolio.name p)
          (map (reopen now) (Portfolio.stocks p))
          (fold_left pay
             (map (fun it => Stock.total_invested (snd it)) (Portfolio.stocks p))
             (Portfolio.cash p))
          (Portfolio.creation_date p) (Portfolio.metadata p))
  /\ dict_keys (map (reopen now) (Portfolio.stocks p))
     = dict_keys (Portfolio.stocks p)
  /\ Forall (fun it => (List.length (Stock.transactions (snd it)) <= 1)%nat)
       (map (reopen now) (Portfolio.stocks p)).
Proof.
  intros Hwf Hup. split; [|split].
  - unfold Portfolio.load, Portfolio.save, Portfolio.to_dict.
    cbn [Portfolio.snap_stocks Portfolio.snap_name Portfolio.snap_cash
         Portfolio.snap_creation_date Portfolio.snap_metadata].
    rewrite load_loop_state.
    + reflexivity.
    + unfold dict_keys in Hup. rewrite Forall_map in Hup. exact Hup.
    + exact Hwf.
  - unfold dict_keys. rewrite map_map. reflexivity.
  - apply Forall_map. apply Forall_forall. intros [k h] _.
    unfold reopen, opened. cbn [fst snd].
    destruct (Qlt_bool 0 (Stock.shares h) && Qlt_bool 0 (Stock.purchase_price h))%bool.
    + rewrite buy_state. cbn. lia.
    + cbn. lia.
Qed.

Lemma load_of_save_witness :
  Portfolio.load 3 (Portfolio.save test_save_and_load_portfolio)
  = Ok (Portfolio.mk (Portfolio.name test_save_and_load_portfolio)
          (map (reopen 3) (Portfolio.stocks test_save_and_load_portfolio))
          (fold_left pay
             (map (fun it => Stock.total_invested (snd it))
                (Portfolio.stocks test_save_and_load_portfolio))
             (Portfolio.cash test_save_and_load_portfolio))
          (Portfolio.creation_date test_save_and_load_portfolio)
          (Portfolio.metadata test_save_and_load_portfolio))
  /\ dict_keys (map (reopen 3) (Portfolio.stocks test_save_and_load_portfolio))
     = dict_keys (Portfolio.stocks test_save_and_load_portfolio)
  /\ Forall (fun it => (List.length (Stock.transactions (snd it)) <= 1)%nat)
       (map (reopen 3) (Portfolio.stocks test_save_and_load_portfolio)).
Proof.
  apply (load_of_save 3 test_save_and_load_portfolio).
  - repeat constructor; cbn; intuition discriminate.
  - repeat constructor.
Defined.

Lemma fold_pay_covered (costs : list Q) (c : Q) :
  Forall (fun x => 0 <= x) costs ->
  pysum costs <= c ->
  fold_left pay costs c == c - pysum costs.
Proof.
  revert c. induction costs as [|x costs IH]; intros c Hpos Hle;
    cbn [fold_left].
  - unfold pysum. cbn [fold_left]. ring.
  - inversion Hpos as [|? ? Hx Hpos']; subst.
    rewrite pysum_cons in Hle.
    assert (Hrest : 0 <= pysum costs).
    { clear - Hpos'. induction costs as [|y costs IH].
      - unfold pysum. cbn [fold_left]. lra.
      - inversion Hpos'; subst. rewrite pysum_cons.
        specialize (IH ltac:(assumption)). lra. }
    unfold pay at 2.
    assert (Qle_bool x c = true) as -> by (apply Qle_bool_iff; lra).
    rewrite IH by (assumption || lra). rewrite pysum_cons. ring.
Qed.

(** X14.  When no holding has a negative cost basis and the cash covers the
    cost basis of the whole portfolio, the portfolio loaded back from its
    snapshot has paid that cost basis once more: its cash is the saved cash
    less the total invested. *)
Theorem load_pays_cost_basis_again (now : datetime) (p : Portfolio.t) :
  dict_wf (Portfolio.stocks p) ->
  Forall (fun k => upper k = k) (dict_keys (Portfolio.stocks p)) ->
  Forall (fun h => 0 <= Stock.total_invested h) (dict_values (Portfolio.stocks p)) ->
  Portfolio.total_invested p <= Portfolio.cash p ->
  exists loaded,
    Portfolio.load now (Portfolio.save p) = Ok loaded
    /\ Portfolio.cash loaded == Portfolio.cash p - Portfolio.total_invested p.
Proof.
  intros Hwf Hup Hpos Hle.
  unfold Portfolio.load, Portfolio.save, Portfolio.to_dict.
  cbn [Portfolio.snap_stocks Portfolio.snap_name Portfolio.snap_cash
       Portfolio.snap_creation_date Portfolio.snap_metadata].
  rewrite load_loop_state.
  - eexists. split; [reflexivity|]. cbn [Portfolio.cash Portfolio.init].
    unfold Portfolio.total_invested, dict_values in *.
    rewrite map_map in *. rewrite Forall_map in Hpos.
    rewrite fold_pay_covered; [reflexivity | now apply Forall_map | exact Hle].
  - unfold dict_keys in Hup. rewrite Forall_map in Hup. exact Hup.
  - exact Hwf.
Qed.

(** The portfolio of [test_add_stock_to_portfolio]: cash 8500, 20 AAPL at
    150; loaded back it has cash 5500. *)
Lemma load_pays_cost_basis_again_witness :
  exists loaded,
    Portfolio.load 3 (Portfolio.save test_add_stock_portfolio) = Ok loaded
    /\ Portfolio.cash loaded
       == Portfolio.cash test_add_stock_portfolio
          - Portfolio.total_invested test_add_stock_portfolio.
Proof.
  apply (load_pays_cost_basis_again 3 test_add_stock_portfolio).
  - repeat constructor; cbn; intuition discriminate.
  - repeat constructor.
  - repeat constructor. vm_compute. discriminate.
  - vm_compute. discriminate.
Defined.

(** ** The other two searches of the optimizer *)

Section Searches.
Variable rng : Type.
Variable np_random_random : nat -> rng -> list Q * rng.
Variable np_sqrt : Q -> Q.
Variable self : PortfolioOptimizer.stats.
Variable num_assets : nat.

Lemma min_variance_loop_keeps_min (count : nat) (g : rng)
    (min_variance : PortfolioOptimizer.bound)
    (optimal_weights : option (list PortfolioOptimizer.float)) :
  PortfolioOptimizer.min_variance_loop rng np_random_random np_sqrt self
    num_assets count g min_variance optimal_weights
  = keep_min (std_of np_sqrt self) (fun _ => true)
      (drawn_vectors np_random_random num_assets count g)
      min_variance optimal_weights.
Proof.
  revert g min_variance optimal_weights.
  induction count as [|count IH]; intros g m ow;
    cbn [PortfolioOptimizer.min_variance_loop drawn_vectors];
    [reflexivity|].
  destruct (np_random_random num_assets g) as [weights g'].
  cbn [keep_min andb]. unfold std_of.
  destruct (PortfolioOptimizer.performance np_sqrt self
              (PortfolioOptimizer.normalize_nan weights)) as [r sd].
  cbn [snd]. destruct (PortfolioOptimizer.below sd m); apply IH.
Qed.

Lemma target_return_loop_keeps_min (target_return : Q) (count : nat) (g : rng)
    (min_variance : PortfolioOptimizer.bound)
    (optimal_weights : option (list PortfolioOptimizer.float)) :
  PortfolioOptimizer.target_return_loop rng np_random_random np_sqrt self
    target_return num_assets count g min_variance optimal_weights
  = keep_min (std_of np_sqrt self) (near_target self target_return)
      (drawn_vectors np_random_random num_assets count g)
      min_variance optimal_weights.
Proof.
  revert g min_variance optimal_weights.
  induction count as [|count IH]; intros g m ow;
    cbn [PortfolioOptimizer.target_return_loop drawn_vectors];
    [reflexivity|].
  destruct (np_random_random num_assets g) as [weights g'].
  cbn [keep_min]. unfold std_of, near_target, return_of.
  unfold PortfolioOptimizer.performance.
  cbn [fst snd].
  destruct (Qlt_bool _ (2 # 100)); cbn [andb]; [|apply IH].
  destruct (PortfolioOptimizer.below _ m); apply IH.
Qed.

Lemma drawn_vectors_length (count : nat) (g : rng) :
  List.length (drawn_vectors np_random_random num_assets count g) = count.
Proof.
  revert g. induction count as [|count IH]; intros g; cbn [drawn_vectors];
    [reflexivity|].
  destruct (np_random_random num_assets g) as [weights g'].
  cbn [List.length]. now rewrite IH.
Qed.
End Searches.

(** What [keep_min] returns.  Nothing, only if it started with nothing and
    every vector was refused or had a volatility that is not a number.
    Otherwise the vector it started with or an accepted one, whose
    volatility is a number, at most that of the start and of every accepted
    vector whose volatility is a number. *)
Lemma keep_min_spec
    (std : list PortfolioOptimizer.float -> PortfolioOptimizer.float)
    (accept : list PortfolioOptimizer.float -> bool)
    (drawn : list (list PortfolioOptimizer.float))
    (m : PortfolioOptimizer.bound)
    (ow : option (list PortfolioOptimizer.float)) :
  (forall w0, ow = Some w0 ->
     exists s0, std w0 = Some s0 /\ m = PortfolioOptimizer.Least s0) ->
  (ow = None -> m = PortfolioOptimizer.Infinity) ->
  match keep_min std accept drawn m ow with
  | None =>
      ow = None /\ Forall (fun w => accept w = false \/ std w = None) drawn
  | Some w =>
      (ow = Some w \/ (In w drawn /\ accept w = true))
      /\ exists s,
          std w = Some s
          /\ (forall w0 s0, ow = Some w0 -> std w0 = Some s0 -> s <= s0)
          /\ (forall w' s',
                In w' drawn -> accept w' = true -> std w' = Some s' -> s <= s')
  end.
Proof.
  revert m ow. induction drawn as [|w1 rest IH]; intros m ow Hsome Hnone;
    cbn [keep_min].
  - destruct ow as [w|].
    + destruct (Hsome w eq_refl) as (s0 & Hs0 & _).
      split; [now left|]. exists s0. split; [assumption|]. split.
      * intros w0 s0' H Hs. injection H as <-. rewrite Hs0 in Hs.
        injection Hs as <-. apply Qle_refl.
      * intros w' s' [].
    + split; [reflexivity | constructor].
  - destruct (accept w1 && PortfolioOptimizer.below (std w1) m)%bool eqn:E.
    + apply andb_true_iff in E as [Hacc Hbelow].
      destruct (std w1) as [s1|] eqn:Es1; [|discriminate Hbelow].
      cbn [PortfolioOptimizer.lowered].
      specialize (IH (PortfolioOptimizer.Least s1) (Some w1)).
      destruct (keep_min std accept rest (PortfolioOptimizer.Least s1) (Some w1))
        as [w|].
      * destruct IH as (Hin & s & Hs & Hstart & Hall).
        { intros w0 H. injection H as <-. now exists s1. }
        { discriminate. }
        assert (Hw1 : s <= s1) by now apply (Hstart w1 s1).
        split.
        -- right. destruct Hin as [H|[H Ha]].
           ++ injection H as <-. split; [now left | assumption].
           ++ split; [now right | assumption].
        -- exists s. split; [assumption|]. split.
           ++ intros w0 s0 H Hs0.
              destruct (Hsome w0 H) as (s0' & Hs0' & ->).
              rewrite Hs0 in Hs0'. injection Hs0' as <-.
              cbn [PortfolioOptimizer.below] in Hbelow.
              apply Qlt_bool_true in Hbelow. lra.
           ++ intros w' s' [<-|Hin'] Ha Hs'.
              ** rewrite Es1 in Hs'. injection Hs' as <-. assumption.
              ** now apply (Hall w' s').
      * destruct IH as [H _].
        { intros w0 H. injection H as <-. now exists s1. }
        { discriminate. }
        discriminate H.
    + specialize (IH m ow Hsome Hnone).
      destruct (keep_min std accept rest m ow) as [w|].
      * destruct IH as (Hin & s & Hs & Hstart & Hall).
        split.
        -- destruct Hin as [H|[H Ha]]; [now left|].
           right. split; [now right | assumption].
        -- exists s. split; [assumption|]. split; [assumption|].
           intros w' s' [<-|Hin'] Ha Hs'; [|now apply (Hall w' s')].
           rewrite Ha, Hs' in E. cbn [andb] in E.
           destruct ow as [w0|].
           ++ destruct (Hsome w0 eq_refl) as (s0 & Hs0 & ->).
              cbn [PortfolioOptimizer.below] in E.
              apply Qlt_bool_false in E.
              specialize (Hstart w0 s0 eq_refl Hs0). lra.
           ++ rewrite (Hnone eq_refl) in E. discriminate E.
      * destruct IH as [Hnow Hrest]. split; [assumption|].
        constructor; [|assumption].
        rewrite (Hnone Hnow) in E.
        destruct (accept w1); [|now left]. right.
        destruct (std w1); [discriminate E | reflexivity].
Qed.

(** X15.  [optimize_min_variance] raises [TypeError] exactly when the
    volatility of every one of the 10000 vectors drawn is NaN (as with the
    NaN covariance of a one-row returns frame); otherwise it returns a
    mapping whose weights are one of the vectors drawn, with a volatility
    that is a number and no greater than that of any drawn vector whose
    volatility is a number. *)
Theorem min_variance_outcome (rng : Type)
    (np_random_random : nat -> rng -> list Q * rng) (np_sqrt : Q -> Q)
    (self : PortfolioOptimizer.stats) (g : rng) :
  (PortfolioOptimizer.optimize_min_variance rng np_random_random np_sqrt self g
   = PortfolioOptimizer.RaisesTypeError
   <-> Forall (fun w => std_of np_sqrt self w = None)
         (drawn_vectors np_random_random
            (List.length (PortfolioOptimizer.stats_returns self))
            PortfolioOptimizer.num_portfolios g))
  /\ (forall d,
        PortfolioOptimizer.optimize_min_variance rng np_random_random np_sqrt
          self g = PortfolioOptimizer.Allocation d ->
        exists w s,
          d = combine (map fst (PortfolioOptimizer.stats_returns self)) w
          /\ In w (drawn_vectors np_random_random
                     (List.length (PortfolioOptimizer.stats_returns self))
                     PortfolioOptimizer.num_portfolios g)
          /\ std_of np_sqrt self w = Some s
          /\ forall w' s',
               In w' (drawn_vectors np_random_random
                        (List.length (PortfolioOptimizer.stats_returns self))
                        PortfolioOptimizer.num_portfolios g) ->
               std_of np_sqrt self w' = Some s' -> s <= s')
  /\ PortfolioOptimizer.optimize_min_variance rng np_random_random np_sqrt self g
     <> PortfolioOptimizer.ReturnsNone.
Proof.
  unfold PortfolioOptimizer.optimize_min_variance.
  rewrite min_variance_loop_keeps_min.
  pose proof (keep_min_spec (std_of np_sqrt self) (fun _ => true)
                (drawn_vectors np_random_random
                   (List.length (PortfolioOptimizer.stats_returns self))
                   PortfolioOptimizer.num_portfolios g)
                PortfolioOptimizer.Infinity None) as Hspec.
  destruct (keep_min _ _ _ PortfolioOptimizer.Infinity None) as [w|].
  - destruct Hspec as (Hin & s & Hs & _ & Hall); [discriminate | reflexivity |].
    destruct Hin as [H|[Hin _]]; [discriminate H|].
    split; [|split; [|discriminate]].
    + split; [discriminate|]. intros Hnan.
      rewrite Forall_forall in Hnan. specialize (Hnan w Hin). congruence.
    + intros d Hd. injection Hd as <-. exists w, s.
      split; [reflexivity|]. split; [assumption|]. split; [assumption|].
      intros w' s' Hin' Hs'. now apply (Hall w' s').
  - destruct Hspec as [_ Hrej]; [discriminate | reflexivity |].
    split; [|split; discriminate].
    split; [intros _ | reflexivity].
    apply Forall_impl with (2 := Hrej). intros w [H|H]; [discriminate H | exact H].
Qed.

(** X16.  [optimize_target_return] returns [None] exactly when none of the
    10000 vectors drawn has both a return within 0.02 of the target and a
    volatility that is a number; otherwise it returns a mapping whose
    weights are such a drawn vector, of volatility no greater than that of
    any other such vector.  It never raises. *)
Theorem target_return_outcome (rng : Type)
    (np_random_random : nat -> rng -> list Q * rng) (np_sqrt : Q -> Q)
    (self : PortfolioOptimizer.stats) (target_return : Q) (g : rng) :
  (PortfolioOptimizer.optimize_target_return rng np_random_random np_sqrt self
     target_return g = PortfolioOptimizer.ReturnsNone
   <-> Forall (fun w => near_target self target_return w = false
                        \/ std_of np_sqrt self w = None)
         (drawn_vectors np_random_random
            (List.length (PortfolioOptimizer.stats_returns self))
            PortfolioOptimizer.num_portfolios g))
  /\ (forall d,
        PortfolioOptimizer.optimize_target_return rng np_random_random np_sqrt
          self target_return g = PortfolioOptimizer.Allocation d ->
        exists w s,
          d = combine (map fst (PortfolioOptimizer.stats_returns self)) w
          /\ In w (drawn_vectors np_random_random
                     (List.length (PortfolioOptimizer.stats_returns self))
                     PortfolioOptimizer.num_portfolios g)
          /\ near_target self target_return w = true
          /\ std_of np_sqrt self w = Some s
          /\ forall w' s',
               In w' (drawn_vectors np_random_random
                        (List.length (PortfolioOptimizer.stats_returns self))
                        PortfolioOptimizer.num_portfolios g) ->
               near_target self target_return w' = true ->
               std_of np_sqrt self w' = Some s' -> s <= s')
  /\ PortfolioOptimizer.optimize_target_return rng np_random_random np_sqrt self
       target_return g
     <> PortfolioOptimizer.RaisesTypeError.
Proof.
  unfold PortfolioOptimizer.optimize_target_return.
  rewrite target_return_loop_keeps_min.
  pose proof (keep_min_spec (std_of np_sqrt self)
                (near_target self target_return)
                (drawn_vectors np_random_random
                   (List.length (PortfolioOptimizer.stats_returns self))
                   PortfolioOptimizer.num_portfolios g)
                PortfolioOptimizer.Infinity None) as Hspec.
  destruct (keep_min _ _ _ PortfolioOptimizer.Infinity None) as [w|].
  - destruct Hspec as (Hin & s & Hs & _ & Hall); [discriminate | reflexivity |].
    destruct Hin as [H|[Hin Hacc]]; [discriminate H|].
    split; [|split; [|discriminate]].
    + split; [discriminate|]. intros Hrej.
      rewrite Forall_forall in Hrej.
      destruct (Hrej w Hin) as [H|H]; congruence.
    + intros d Hd. injection Hd as <-. exists w, s.
      split; [reflexivity|]. repeat (split; [assumption|]).
      intros w' s' Hin' Ha Hs'. now apply (Hall w' s').
  - destruct Hspec as [_ Hrej]; [discriminate | reflexivity |].
    split; [|split; discriminate].
    split; [intros _; exact Hrej | reflexivity].
Qed.

(** Three draws for [two_assets]: the loop keeps one of them, and its
    volatility is a number. *)
Example three_draws_keep_one :
  exists w,
    PortfolioOptimizer.min_variance_loop Z lcg_random sqrt_6 two_assets_stats
      2 3 42%Z PortfolioOptimizer.Infinity None = Some w
    /\ In w (drawn_vectors lcg_random 2 3 42%Z)
    /\ std_of sqrt_6 two_assets_stats w <> None.
Proof.
  eexists. split; [vm_compute; reflexivity|]. split.
  - vm_compute.
    first [ left; reflexivity
          | right; left; reflexivity
          | right; right; left; reflexivity ].
  - vm_compute. discriminate.
Qed.

Lemma lcg_random_length (n : nat) (g : Z) : List.length (fst (lcg_random n g)) = n.
Proof.
  revert g. induction n as [|n IH]; intros g; cbn [lcg_random]; [reflexivity|].
  specialize (IH (lcg_next g)). destruct (lcg_random n (lcg_next g)) as [rest g'].
  cbn [fst List.length] in *. now rewrite IH.
Qed.

Lemma one_row_volatility_nan (np_sqrt : Q -> Q) (w : list PortfolioOptimizer.float) :
  List.length w = 1%nat -> std_of np_sqrt one_row w = None.
Proof.
  destruct w as [|x [|y w]]; try discriminate. intros _.
  unfold std_of, PortfolioOptimizer.performance. cbn [snd one_row
    PortfolioOptimizer.stats_cov map].
  unfold PortfolioOptimizer.fdot. cbn [zip_with fold_left].
  destruct x; reflexivity.
Qed.

Lemma lcg_vectors_length (count : nat) (n : nat) (g : Z) :
  Forall (fun w => List.length w = n) (drawn_vectors lcg_random n count g).
Proof.
  revert g. induction count as [|count IH]; intros g; cbn [drawn_vectors];
    [constructor|].
  pose proof (lcg_random_length n g) as Hlen.
  destruct (lcg_random n g) as [weights g']. cbn [fst] in Hlen.
  constructor; [|apply IH].
  unfold PortfolioOptimizer.normalize_nan.
  destruct (Qeq_bool (pysum weights) 0); now rewrite length_map.
Qed.

(** On a one-row returns frame every volatility is NaN, no vector is ever
    kept, and [optimize_min_variance] ends in [TypeError] while
    [optimize_target_return] returns [None]. *)
Example one_row_frame_finds_nothing (np_sqrt : Q -> Q) (target_return : Q) (g : Z) :
  PortfolioOptimizer.optimize_min_variance Z lcg_random np_sqrt one_row g
  = PortfolioOptimizer.RaisesTypeError
  /\ PortfolioOptimizer.optimize_target_return Z lcg_random np_sqrt one_row
       target_return g
     = PortfolioOptimizer.ReturnsNone.
Proof.
  assert (Hnan : Forall (fun w => std_of np_sqrt one_row w = None)
                   (drawn_vectors lcg_random 1 PortfolioOptimizer.num_portfolios g)).
  { apply Forall_impl with (2 := lcg_vectors_length _ 1 g).
    intros w. apply one_row_volatility_nan. }
  unfold PortfolioOptimizer.optimize_min_variance,
    PortfolioOptimizer.optimize_target_return.
  rewrite min_variance_loop_keeps_min, target_return_loop_keeps_min.
  cbn [one_row PortfolioOptimizer.stats_returns List.length].
  fold one_row.
  pose proof (keep_min_spec (std_of np_sqrt one_row) (fun _ => true)
                (drawn_vectors lcg_random 1 PortfolioOptimizer.num_portfolios g)
                PortfolioOptimizer.Infinity None) as H1.
  pose proof (keep_min_spec (std_of np_sqrt one_row)
                (near_target one_row target_return)
                (drawn_vectors lcg_random 1 PortfolioOptimizer.num_portfolios g)
                PortfolioOptimizer.Infinity None) as H2.
  rewrite Forall_forall in Hnan.
  split.
  - destruct (keep_min _ (fun _ => true) _ _ None) as [w|]; [|reflexivity].
    destruct H1 as ([H|[Hin _]] & s & Hs & _); [discriminate | reflexivity | discriminate H |].
    rewrite (Hnan w Hin) in Hs. discriminate Hs.
  - destruct (keep_min _ (near_target one_row target_return) _ _ None) as [w|];
      [|reflexivity].
    destruct H2 as ([H|[Hin _]] & s & Hs & _); [discriminate | reflexivity | discriminate H |].
    rewrite (Hnan w Hin) in Hs. discriminate Hs.
Qed.

(** ** Weight vectors *)











(** ** Gains and losses, drawdown *)

(** X18.  For a holding with a non-zero share count and a non-zero average
    cost, the percentage gain or loss does not depend on the share count:
    it is the current price over the average cost, less one, times 100; a
    holding with no cost basis reports 0. *)
Theorem gain_loss_percent_is_price_ratio (prov : Provider) (h : Stock.t) :
  (~ Stock.shares h == 0 -> ~ Stock.purchase_price h == 0 ->
   Stock.gain_loss_percent prov h
   == (Stock.get_current_price prov h / Stock.purchase_price h - 1) * 100)
  /\ (Stock.total_invested h == 0 -> Stock.gain_loss_percent prov h = 0).
Proof.
  unfold Stock.gain_loss_percent, Stock.gain_loss, Stock.current_value,
    Stock.total_invested.
  split.
  - intros Hs Hp.
    assert (Qeq_bool (Stock.shares h * Stock.purchase_price h) 0 = false) as ->.
    { apply Qeq_bool_false. intros H. apply Qmult_integral in H. tauto. }
    field. split; assumption.
  - intros H. apply Qeq_bool_iff in H. now rewrite H.
Qed.

Lemma pysum_all_zero (l : list Q) : Forall (fun x => x == 0) l -> pysum l == 0.
Proof.
  induction 1 as [|x l Hx Hl IH].
  - reflexivity.
  - rewrite pysum_cons, Hx, IH. reflexivity.
Qed.

(** X19.  When every price fetch fails (price 0), a portfolio with a
    non-zero cost basis reports a total return of -100, whatever it holds
    and whatever its cash. *)
Theorem failed_prices_report_total_loss (prov : Provider) (p : Portfolio.t) :
  (forall symbol, current_price prov symbol == 0) ->
  ~ Portfolio.total_invested p == 0 ->
  Portfolio.total_return prov p == -100.
Proof.
  intros Hzero Hinv. unfold Portfolio.total_return.
  apply Qeq_bool_false in Hinv. rewrite Hinv. apply Qeq_bool_false in Hinv.
  unfold Portfolio.total_gain_loss, Portfolio.total_value.
  assert (Hv : pysum (map (Stock.current_value prov)
                        (dict_values (Portfolio.stocks p))) == 0).
  { apply pysum_all_zero. apply Forall_map. apply Forall_forall.
    intros h _. unfold Stock.current_value, Stock.get_current_price.
    rewrite Hzero. ring. }
  rewrite Hv. field. exact Hinv.
Qed.

Lemma failed_prices_report_total_loss_witness :
  Portfolio.total_return degraded test_allocation_portfolio == -100.
Proof.
  apply (failed_prices_report_total_loss degraded test_allocation_portfolio).
  - intros symbol. reflexivity.
  - vm_compute. discriminate.
Defined.

Lemma fold_min_le_start (l : list Q) (a : Q) : fold_left Qmin_py l a <= a.
Proof.
  revert a. induction l as [|x l IH]; intros a; cbn [fold_left].
  - apply Qle_refl.
  - apply Qle_trans with (Qmin_py a x); [apply IH|].
    unfold Qmin_py. destruct (Qle_bool a x) eqn:E; q_tests; lra.
Qed.

(** X20.  The maximum drawdown [calculate_metrics] reports is never
    positive: the first day's drawdown is 0 (its cumulative value is its own
    running maximum, the first return not being -1) and the report takes
    the smallest drawdown; on empty returns it is 0. *)
Theorem max_drawdown_never_positive (np_sqrt : Q -> Q) (prov : Provider)
    (period : string) (risk_free_rate : Q) (p : Portfolio.t) (returns : series) :
  Portfolio.calculate_portfolio_returns prov period p = Ok returns ->
  (forall r rest, returns = r :: rest -> ~ r == -1) ->
  exists m,
    Portfolio.calculate_metrics np_sqrt prov period risk_free_rate p = Ok m
    /\ Portfolio.m_max_drawdown m <= 0.
Proof.
  intros Hret Hfirst. unfold Portfolio.calculate_metrics.
  rewrite Hret. cbn [rbind].
  destruct returns as [|r rest]; cbn [series_empty].
  - eexists. split; [reflexivity|]. cbn [Portfolio.m_max_drawdown]. lra.
  - eexists. split; [reflexivity|]. cbn [Portfolio.m_max_drawdown].
    cbn [cumprod_from running_max zip_with series_min].
    specialize (Hfirst r rest eq_refl).
    match goal with
    | |- fold_left Qmin_py ?l ?a * 100 <= 0 =>
        pose proof (fold_min_le_start l a) as Hmin;
        assert (Ha : a == 0) by (field; lra)
    end.
    lra.
Qed.

(** The portfolio of [test_allocation] with AAPL quoted at 100 after the
    closes 100, 102, 51. *)
Lemma max_drawdown_never_positive_witness :
  exists m,
    Portfolio.calculate_metrics sqrt_6 quoted_history "1y" (2 # 100)
      test_allocation_portfolio = Ok m
    /\ Portfolio.m_max_drawdown m <= 0.
Proof.
  eapply (max_drawdown_never_positive sqrt_6 quoted_history "1y" (2 # 100)
            test_allocation_portfolio).
  - vm_compute. reflexivity.
  - intros r rest H. injection H as <- _. vm_compute. discriminate.
Defined.

(** ** The price cache *)

Lemma cached_after_set (now now' : datetime) (key : string) (ttl : Z)
    (v : StockCache.value) (self : StockCache.t) :
  StockCache._get_cached now' key ttl (StockCache._set_cache now key v self)
  = if (now' - now <? ttl)%Z then Some v else None.
Proof.
  unfold StockCache._get_cached, StockCache._set_cache.
  cbn [StockCache._cache StockCache._cache_time].
  now rewrite !dict_get_set_same.
Qed.

(** X21.  A price fetched at time [now] is served from the cache by every
    call less than 60 seconds later: the call returns the same price and
    leaves the cache as it is, whatever the data source would answer then,
    a failure included. *)
Theorem price_served_from_cache_within_ttl (market market' : StockCache.Market)
    (now now' : datetime) (self : StockCache.t) (i : StockCache.RawInfo) :
  StockCache._get_cached now "current_price" 60 self = None ->
  StockCache.ticker_info market (StockCache.symbol self) now = Some i ->
  (now' - now < 60)%Z ->
  exists self1,
    StockCache.get_current_price market now self
    = (StockCache.Number (StockCache.quoted_price i), self1)
    /\ StockCache.get_current_price market' now' self1
       = (StockCache.Number (StockCache.quoted_price i), self1).
Proof.
  intros Hmiss Hinfo Hfresh. unfold StockCache.get_current_price at 1.
  rewrite Hmiss, Hinfo. eexists. split; [reflexivity|].
  unfold StockCache.get_current_price. rewrite cached_after_set.
  apply Z.ltb_lt in Hfresh. now rewrite Hfresh.
Qed.

Lemma price_served_from_cache_within_ttl_witness :
  exists self1,
    StockCache.get_current_price (steady_market 150) 1000 (uncached "aapl")
    = (StockCache.Number
         (StockCache.quoted_price
            (StockCache.mkRawInfo (Some 150) None empty_info)), self1)
    /\ StockCache.get_current_price failing_market 1059 self1
       = (StockCache.Number
            (StockCache.quoted_price
               (StockCache.mkRawInfo (Some 150) None empty_info)), self1).
Proof.
  apply (price_served_from_cache_within_ttl (steady_market 150) failing_market
           1000 1059 (uncached "aapl")
           (StockCache.mkRawInfo (Some 150) None empty_info));
    reflexivity.
Defined.

(** X22.  60 seconds or more after the fetch the cached price is no longer
    used: the call asks the data source again, returns and caches the new
    price when it answers, and returns 0 (not the price it still holds)
    and leaves the cache alone when the fetch fails. *)
Theorem expired_price_is_fetched_again (market market' : StockCache.Market)
    (now now' : datetime) (self : StockCache.t) (i : StockCache.RawInfo) :
  StockCache._get_cached now "current_price" 60 self = None ->
  StockCache.ticker_info market (StockCache.symbol self) now = Some i ->
  (60 <= now' - now)%Z ->
  exists self1,
    StockCache.get_current_price market now self
    = (StockCache.Number (StockCache.quoted_price i), self1)
    /\ (forall i',
          StockCache.ticker_info market' (StockCache.symbol self) now' = Some i' ->
          exists self2,
            StockCache.get_current_price market' now' self1
            = (StockCache.Number (StockCache.quoted_price i'), self2)
            /\ StockCache._get_cached now' "current_price" 60 self2
               = Some (StockCache.Number (StockCache.quoted_price i')))
    /\ (StockCache.ticker_info market' (StockCache.symbol self) now' = None ->
        StockCache.get_current_price market' now' self1
        = (StockCache.Number 0, self1)).
Proof.
  intros Hmiss Hinfo Hold. unfold StockCache.get_current_price at 1.
  rewrite Hmiss, Hinfo. eexists. split; [reflexivity|].
  assert (Hexp : (now' - now <? 60)%Z = false) by (apply Z.ltb_ge; lia).
  split.
  - intros i' Hinfo'. unfold StockCache.get_current_price.
    rewrite cached_after_set, Hexp.
    cbn [StockCache._set_cache StockCache.symbol]. rewrite Hinfo'.
    eexists. split; [reflexivity|].
    fold (StockCache._set_cache now' "current_price"
            (StockCache.Number (StockCache.quoted_price i'))
            (StockCache._set_cache now "current_price"
               (StockCache.Number (StockCache.quoted_price i)) self)).
    rewrite cached_after_set. now rewrite Z.sub_diag.
  - intros Hfail. unfold StockCache.get_current_price.
    rewrite cached_after_set, Hexp.
    cbn [StockCache._set_cache StockCache.symbol]. now rewrite Hfail.
Qed.

Lemma expired_price_is_fetched_again_witness :
  exists self1,
    StockCache.get_current_price (steady_market 150) 1000 (uncached "aapl")
    = (StockCache.Number
         (StockCache.quoted_price
            (StockCache.mkRawInfo (Some 150) None empty_info)), self1)
    /\ (forall i',
          StockCache.ticker_info (steady_market 160)
            (StockCache.symbol (uncached "aapl")) 1060 = Some i' ->
          exists self2,
            StockCache.get_current_price (steady_market 160) 1060 self1
            = (StockCache.Number (StockCache.quoted_price i'), self2)
            /\ StockCache._get_cached 1060 "current_price" 60 self2
               = Some (StockCache.Number (StockCache.quoted_price i')))
    /\ (StockCache.ticker_info (steady_market 160)
          (StockCache.symbol (uncached "aapl")) 1060 = None ->
        StockCache.get_current_price (steady_market 160) 1060 self1
        = (StockCache.Number 0, self1)).
Proof.
  apply (expired_price_is_fetched_again (steady_market 150) (steady_market 160)
           1000 1060 (uncached "aapl")
           (StockCache.mkRawInfo (Some 150) None empty_info)).
  - reflexivity.
  - reflexivity.
  - vm_compute. discriminate.
Defined.

(** ** The store of portfolios *)

Lemma portfolio_id_inj (a b : nat) : Api.portfolio_id a = Api.portfolio_id b -> a = b.
Proof.
  unfold Api.portfolio_id. cbn [append]. intros H. injection H as H.
  apply (f_equal NilEmpty.uint_of_string) in H. rewrite !NilEmpty.usu in H.
  injection H as H. apply (f_equal Nat.of_uint) in H.
  now rewrite !DecimalNat.Unsigned.of_to in H.
Qed.

Lemma dict_keys_length {V : Type} (d : dict V) :
  List.length (dict_keys d) = List.length d.
Proof. apply length_map. Qed.

Lemma create_numbered (now : datetime) (name : string) (cash : Q)
    (portfolios : dict Portfolio.t) (n : nat) :
  dict_keys portfolios = map Api.portfolio_id (seq 1 n) ->
  dict_keys (snd (Api.create_portfolio now name cash portfolios))
  = map Api.portfolio_id (seq 1 (S n)).
Proof.
  intros Hkeys. unfold Api.create_portfolio. cbn [snd].
  assert (Hlen : List.length portfolios = n).
  { rewrite <- dict_keys_length, Hkeys, length_map. apply length_seq. }
  rewrite Hlen, Nat.add_1_r.
  rewrite dict_set_new.
  - unfold dict_keys in *. rewrite map_app, Hkeys, seq_S, map_app. reflexivity.
  - apply dict_get_none_keys. rewrite Hkeys. intros Hin.
    apply in_map_iff in Hin as (j & Hj & Hin).
    apply portfolio_id_inj in Hj. apply in_seq in Hin. lia.
Qed.

Lemma created_from (requests : list (datetime * string * Q))
    (portfolios : dict Portfolio.t) (n : nat) :
  dict_keys portfolios = map Api.portfolio_id (seq 1 n) ->
  dict_keys
    (fold_left
       (fun st (r : datetime * string * Q) =>
          snd (Api.create_portfolio (fst (fst r)) (snd (fst r)) (snd r) st))
       requests portfolios)
  = map Api.portfolio_id (seq 1 (n + List.length requests)).
Proof.
  revert portfolios n. induction requests as [|r requests IH];
    intros portfolios n Hkeys; cbn [fold_left List.length].
  - now rewrite Nat.add_0_r.
  - rewrite (IH _ (S n)); [f_equal; f_equal; lia|].
    now apply create_numbered.
Qed.

Lemma created_keys (requests : list (datetime * string * Q)) :
  dict_keys (created requests)
  = map Api.portfolio_id (seq 1 (List.length requests)).
Proof. unfold created. now rewrite (created_from requests [] 0). Qed.

Lemma portfolio_ids_distinct (n : nat) : NoDup (map Api.portfolio_id (seq 1 n)).
Proof.
  generalize (seq_NoDup n 1). generalize (seq 1 n) as l.
  induction l as [|a l IH]; intros Hnd; cbn [map]; [constructor|].
  apply NoDup_cons_iff in Hnd as [Hnin Hnd]. constructor; [|now apply IH].
  intros Hin. apply in_map_iff in Hin as (b & Hb & Hin).
  apply portfolio_id_inj in Hb. now subst.
Qed.

(** X23.  Creation requests alone never collide: after any series of them
    on the empty store, the store holds one portfolio per request, under the
    identifiers portfolio_1, portfolio_2, ... in order, all distinct. *)
Theorem creations_are_numbered (requests : list (datetime * string * Q)) :
  dict_keys (created requests)
  = map Api.portfolio_id (seq 1 (List.length requests))
  /\ List.length (created requests) = List.length requests
  /\ dict_wf (created requests).
Proof.
  pose proof (created_keys requests) as Hkeys.
  split; [exact Hkeys|]. split.
  - rewrite <- dict_keys_length, Hkeys, length_map. apply length_seq.
  - unfold dict_wf. rewrite Hkeys. apply portfolio_ids_distinct.
Qed.

Lemma dict_del_absent {V : Type} (k : string) (d : dict V) :
  ~ In k (dict_keys d) -> dict_del k d = d.
Proof.
  induction d as [|[k' v'] d IH]; cbn [dict_del dict_keys map fst In];
    [reflexivity|].
  intros Hnin. destruct (String.eqb k k') eqn:E.
  - apply String.eqb_eq in E. subst. tauto.
  - unfold dict_keys in IH. rewrite IH; [reflexivity | tauto].
Qed.

Lemma dict_del_length {V : Type} (k : string) (d : dict V) :
  dict_wf d -> In k (dict_keys d) ->
  S (List.length (dict_del k d)) = List.length d.
Proof.
  unfold dict_wf. induction d as [|[k' v'] d IH];
    cbn [dict_del dict_keys map fst In List.length]; [tauto|].
  intros Hnd Hin. apply NoDup_cons_iff in Hnd as [Hnin Hnd].
  destruct (String.eqb k k') eqn:E.
  - apply String.eqb_eq in E. subst. now rewrite dict_del_absent.
  - apply String.eqb_neq in E. cbn [List.length].
    rewrite IH; [reflexivity | assumption |].
    destruct Hin; [congruence | assumption].
Qed.

(** X24.  After a deletion the numbering by size repeats an identifier in
    use: when, of [n] portfolios created, one other than the last is
    deleted, the next creation is given the identifier portfolio_[n], which
    still names the last portfolio created, and replaces that portfolio;
    the store then holds [n - 1] portfolios. *)
Theorem create_after_delete_overwrites (requests : list (datetime * string * Q))
    (k : nat) (now : datetime) (name : string) (cash : Q) :
  (1 <= k < List.length requests)%nat ->
  exists st1 st2,
    Api.delete_portfolio (Api.portfolio_id k) (created requests)
    = (Api.Success tt, st1)
    /\ dict_get (Api.portfolio_id (List.length requests)) st1
       = dict_get (Api.portfolio_id (List.length requests)) (created requests)
    /\ dict_get (Api.portfolio_id (List.length requests)) st1 <> None
    /\ Api.create_portfolio now name cash st1
       = (Api.portfolio_id (List.length requests), st2)
    /\ dict_get (Api.portfolio_id (List.length requests)) st2
       = Some (Portfolio.init now name cash)
    /\ List.length st2 = (List.length requests - 1)%nat.
Proof.
  intros Hk. pose proof (created_keys requests) as Hkeys.
  set (n := List.length requests) in *. set (st := created requests) in *.
  assert (Hwf : dict_wf st).
  { unfold dict_wf. rewrite Hkeys. apply portfolio_ids_distinct. }
  assert (Hin : forall j, (1 <= j <= n)%nat -> In (Api.portfolio_id j) (dict_keys st)).
  { intros j Hj. rewrite Hkeys. apply in_map. apply in_seq. lia. }
  assert (Hlen : List.length st = n).
  { rewrite <- dict_keys_length, Hkeys, length_map. apply length_seq. }
  assert (Hheld : dict_get (Api.portfolio_id k) st <> None).
  { intros H. apply dict_get_none_keys in H. apply H, Hin. lia. }
  assert (Hne : Api.portfolio_id k <> Api.portfolio_id n).
  { intros H. apply portfolio_id_inj in H. lia. }
  assert (Hlast : dict_get (Api.portfolio_id n) (dict_del (Api.portfolio_id k) st)
                  = dict_get (Api.portfolio_id n) st)
    by now apply dict_get_del_other.
  assert (Hlast' : dict_get (Api.portfolio_id n) st <> None).
  { intros H. apply dict_get_none_keys in H. apply H, Hin. lia. }
  assert (Hlen1 : S (List.length (dict_del (Api.portfolio_id k) st)) = n).
  { rewrite dict_del_length; [exact Hlen | exact Hwf | apply Hin; lia]. }
  exists (dict_del (Api.portfolio_id k) st).
  eexists. split.
  { unfold Api.delete_portfolio, dict_mem.
    destruct (dict_get (Api.portfolio_id k) st); [reflexivity | congruence]. }
  split; [exact Hlast|]. split; [congruence|].
  unfold Api.create_portfolio.
  replace (List.length (dict_del (Api.portfolio_id k) st) + 1)%nat with n by lia.
  split; [reflexivity|]. split; [apply dict_get_set_same|].
  rewrite <- dict_keys_length, dict_keys_set_present by congruence.
  rewrite dict_keys_length. lia.
Qed.

(** Two portfolios are created, the first is deleted, a third is created. *)
Lemma create_after_delete_overwrites_witness :
  exists st1 st2,
    Api.delete_portfolio (Api.portfolio_id 1)
      (created [(1%Z, "A", 100); (2%Z, "B", 200)])
    = (Api.Success tt, st1)
    /\ dict_get (Api.portfolio_id 2) st1
       = dict_get (Api.portfolio_id 2) (created [(1%Z, "A", 100); (2%Z, "B", 200)])
    /\ dict_get (Api.portfolio_id 2) st1 <> None
    /\ Api.create_portfolio 3 "C" 300 st1 = (Api.portfolio_id 2, st2)
    /\ dict_get (Api.portfolio_id 2) st2 = Some (Portfolio.init 3 "C" 300)
    /\ List.length st2 = (2 - 1)%nat.
Proof.
  apply (create_after_delete_overwrites [(1%Z, "A", 100); (2%Z, "B", 200)]
           1 3 "C" 300).
  cbn. lia.
Defined.

(** ** Symbols stay in upper case *)

Lemma Forall_incl {A : Type} (P : A -> Prop) (l l' : list A) :
  incl l' l -> Forall P l -> Forall P l'.
Proof.
  intros Hincl Hall. apply Forall_forall. intros x Hx.
  rewrite Forall_forall in Hall. apply Hall, Hincl, Hx.
Qed.

Lemma dict_keys_set {V : Type} (k : string) (v : V) (d : dict V) :
  dict_keys (dict_set k v d)
  = if dict_mem k d then dict_keys d else (dict_keys d ++ [k])%list.
Proof.
  unfold dict_mem. destruct (dict_get k d) eqn:E.
  - apply dict_keys_set_present. congruence.
  - rewrite dict_set_new by assumption. unfold dict_keys. now rewrite map_app.
Qed.

Lemma upper_keys_set (k : string) (h : Stock.t) (p : Portfolio.t) :
  upper_keys p ->
  Forall (fun k' => upper k' = k')
    (dict_keys (dict_set (upper k) h (Portfolio.stocks p))).
Proof.
  unfold upper_keys. intros Hup. rewrite dict_keys_set.
  destruct (dict_mem (upper k) (Portfolio.stocks p)); [assumption|].
  apply Forall_app. split; [assumption|].
  constructor; [apply upper_idem | constructor].
Qed.

(** X25.  The symbols of a portfolio stay in upper case and distinct under
    [add_stock], [sell_stock] (whatever its outcome) and [remove_stock]. *)
Theorem symbols_stay_upper_case (now : datetime) (symbol : string) (n price : Q)
    (name : option string) (p : Portfolio.t) :
  upper_keys p -> dict_wf (Portfolio.stocks p) ->
  (upper_keys (snd (Portfolio.add_stock now symbol n price name p))
   /\ dict_wf (Portfolio.stocks (snd (Portfolio.add_stock now symbol n price name p))))
  /\ (upper_keys (snd (Portfolio.sell_stock now symbol n price p))
      /\ dict_wf (Portfolio.stocks (snd (Portfolio.sell_stock now symbol n price p))))
  /\ (upper_keys (Portfolio.remove_stock symbol p)
      /\ dict_wf (Portfolio.stocks (Portfolio.remove_stock symbol p))).
Proof.
  intros Hup Hwf.
  assert (Hdel : forall k d, Forall (fun k' => upper k' = k') (dict_keys d) ->
                 Forall (fun k' => upper k' = k')
                   (dict_keys (@dict_del Stock.t k d))).
  { intros k d. apply Forall_incl, dict_keys_del_incl. }
  split; [|split].
  - rewrite add_stock_state. cbn [snd]. unfold upper_keys.
    cbn [Portfolio.stocks].
    split; [now apply upper_keys_set | now apply dict_wf_set].
  - unfold Portfolio.sell_stock.
    destruct (dict_get (upper symbol) (Portfolio.stocks p)) as [h|] eqn:E;
      [|now split].
    destruct (Stock.add_transaction now n price "sell" None 0 h) as [[[]|e] h'];
      cbn [snd]; unfold upper_keys.
    + destruct (Qeq_bool (Stock.shares h') 0); cbn [snd].
      * rewrite remove_stock_present; rewrite upper_idem.
        -- cbn [Portfolio.set_stocks Portfolio.set_cash Portfolio.stocks].
           split; [apply Hdel; now apply upper_keys_set|].
           apply dict_wf_del. now apply dict_wf_set.
        -- cbn [Portfolio.set_stocks Portfolio.set_cash Portfolio.stocks].
           now rewrite dict_get_set_same.
      * cbn [Portfolio.set_stocks Portfolio.set_cash Portfolio.stocks].
        split; [now apply upper_keys_set | now apply dict_wf_set].
    + cbn [Portfolio.set_stocks Portfolio.stocks].
      split; [now apply upper_keys_set | now apply dict_wf_set].
  - unfold Portfolio.remove_stock.
    destruct (dict_mem (upper symbol) (Portfolio.stocks p)); [|now split].
    unfold upper_keys. cbn [Portfolio.set_stocks Portfolio.stocks].
    split; [now apply Hdel | now apply dict_wf_del].
Qed.

Lemma symbols_stay_upper_case_witness :
  (upper_keys (snd (Portfolio.add_stock 3 "msft" 4 300 None test_allocation_portfolio))
   /\ dict_wf (Portfolio.stocks
                (snd (Portfolio.add_stock 3 "msft" 4 300 None test_allocation_portfolio))))
  /\ (upper_keys (snd (Portfolio.sell_stock 3 "msft" 4 300 test_allocation_portfolio))
      /\ dict_wf (Portfolio.stocks
                   (snd (Portfolio.sell_stock 3 "msft" 4 300 test_allocation_portfolio))))
  /\ (upper_keys (Portfolio.remove_stock "msft" test_allocation_portfolio)
      /\ dict_wf (Portfolio.stocks
                   (Portfolio.remove_stock "msft" test_allocation_portfolio))).
Proof.
  apply (symbols_stay_upper_case 3 "msft" 4 300 None test_allocation_portfolio).
  - repeat constructor.
  - repeat constructor; cbn; intuition discriminate.
Defined.

(** ** The iteration the Max-Sharpe search singles out *)



